(** * Agentic-Chatbot: the routing and query core, verified

    A shallow embedding of the meeting-query agents
    ([agents/database_agent.py], [tools/database_tool.py]), of the date
    parsing of the scheduling agent ([agents/scheduling_agent.py]) and of the
    orchestrator's [process] ([agents/orchestrator.py]), with the properties
    the specification states about them.

    Conventions of the embedding:
    - a Python [str] is a Rocq [string] holding its UTF-8 bytes; searching
      for an ASCII literal gives the same answer on bytes and on code points;
    - a [date] is its proleptic Gregorian ordinal ([date.toordinal()]), a
      [time] its number of microseconds since midnight;
    - a call that may raise returns a [result]; the clock reading
      [datetime.now()] is the explicit argument [now];
    - library functions whose full behaviour is outside the repository
      ([datetime.strptime], [isoformat], [str.lower], the message of an
      AttributeError of SQLAlchemy) are the fields of the class [PyLib];
      [ascii_lib] is an executable instance for ASCII input. *)

From Stdlib Require Import ZArith List String Ascii Bool Lia Permutation.
From Stdlib Require Import DecimalString Sorted.
From stdpp Require Import base strings gmap.
Import ListNotations.
Open Scope string_scope.
Open Scope Z_scope.

(* ===================================================================== *)
(** * Python values, exceptions and results *)
(* ===================================================================== *)

Module Py.

(** An exception: its class name and [str(e)]. *)
Record exn := Exn { exn_class : string; exn_str : string }.

Inductive result (A : Type) : Type :=
| Return (a : A)
| Raise (e : exn).
Arguments Return {A} a.
Arguments Raise {A} e.

Definition bind {A B} (r : result A) (k : A -> result B) : result B :=
  match r with
  | Return a => k a
  | Raise e => Raise e
  end.

(** [try: body / except: handler] on a pure computation. *)
Definition try_except {A} (body : result A) (handler : exn -> result A) : result A :=
  match body with
  | Return a => Return a
  | Raise e => handler e
  end.

(** The JSON-like values the response dictionaries hold. *)
Inductive pyval :=
| PyNone
| PyBool (b : bool)
| PyInt (z : Z)
| PyStr (s : string)
| PyJson (text : string).   (* any other value, kept as its JSON text *)

(** Truthiness of an optional string argument: [if date:], [if location:]. *)
Definition truthy (o : option string) : bool :=
  match o with
  | None => false
  | Some s => negb (String.eqb s "")
  end.

(** ** Dates and times *)

Definition MAXORDINAL : Z := 3652059.   (* date(9999, 12, 31).toordinal() *)

Definition date := Z.

Record time := Time { microseconds : Z }.
Definition time_min : time := Time 0.                 (* 00:00:00 *)
Definition time_max : time := Time 86399999999.       (* 23:59:59.999999 *)

Record datetime := Datetime { dt_date : date; dt_time : time }.

(** [datetime.combine(d, t)] *)
Definition combine (d : date) (t : time) : datetime := Datetime d t.

(** [d + timedelta(days=n)]: raises OverflowError outside
    [date.min .. date.max]. *)
Definition date_add (d : date) (days : Z) : result date :=
  let o := d + days in
  if (0 <? o) && (o <=? MAXORDINAL) then Return o
  else Raise (Exn "OverflowError" "date value out of range").

Definition datetime_leb (a b : datetime) : bool :=
  (dt_date a <? dt_date b)
  || ((dt_date a =? dt_date b) && (microseconds (dt_time a) <=? microseconds (dt_time b))).

(** A clock reading whose date has a next day, as every reading before
    9999-12-31 has. *)
Definition has_tomorrow (now : datetime) : Prop :=
  0 <= dt_date now < MAXORDINAL.

(** A clock reading at least a week before 9999-12-31. *)
Definition has_next_week (now : datetime) : Prop :=
  0 < dt_date now <= MAXORDINAL - 7.

(** ** Library functions taken as an interface *)

Class PyLib := {
  (** [datetime.strptime(s, '%Y-%m-%d')] *)
  strptime_ymd : string -> result datetime;
  (** [dt.isoformat()] *)
  isoformat : datetime -> string;
  (** [s.lower()] *)
  str_lower : string -> string;
  (** [str(e)] of the AttributeError SQLAlchemy raises for [.any()] on the
      attribute of a plain column: its comparator has no such method *)
  column_has_no_any : string
}.

(** ** More of the language: equality of datetimes, [str] of an int, and the
    operations on values of any type *)

(** [a == b] on datetimes *)
Definition datetime_eqb (a b : datetime) : bool :=
  (dt_date a =? dt_date b)
  && (microseconds (dt_time a) =? microseconds (dt_time b)).

(** A time of day, as every [datetime] holds one. *)
Definition valid_time (t : time) : Prop :=
  0 <= microseconds t <= 86399999999.

(** [str(n)] of an int that is a length *)
Definition str_of_nat (n : nat) : string :=
  NilEmpty.string_of_uint (Nat.to_uint n).

(** What the interpreter does with a value that is not a string or an int:
    its [str()], the JSON text a JSON column stores for a dictionary, and the
    comparison [v > literal] of a value kept as JSON text (a float, a list)
    with a numeric literal, which may raise TypeError. *)
Class PyDynamic := {
  py_repr : pyval -> string;
  json_dumps : gmap string pyval -> string;
  json_gt : string -> string -> result bool;
  (** [type(v).__name__] of a value kept as JSON text *)
  json_type : string -> string
}.

(** [type(v).__name__] *)
Definition type_name `{PyDynamic} (v : pyval) : string :=
  match v with
  | PyNone => "NoneType"
  | PyBool _ => "bool"
  | PyInt _ => "int"
  | PyStr _ => "str"
  | PyJson text => json_type text
  end.

(** [str(v)], as an f-string formats a value. *)
Definition py_str `{PyDynamic} (v : pyval) : string :=
  match v with
  | PyStr s => s
  | other => py_repr other
  end.

End Py.
Export Py.

Notation "'let!' x ':=' c 'in' k" := (Py.bind c (fun x => k))
  (at level 10, x name, c at level 100, k at level 200).

(* ===================================================================== *)
(** * Regular expressions of the agents: alternations of literals *)
(* ===================================================================== *)

Module Re.

(** Every pattern of [DatabaseAgent] is one group of literal alternatives,
    [(a|b|c)], without anchors or word boundaries: [re.search] succeeds
    exactly when one alternative occurs somewhere in the text. *)
Definition regex := list string.

Fixpoint contains (needle text : string) : bool :=
  String.prefix needle text
  || match text with
     | EmptyString => false
     | String _ rest => contains needle rest
     end.

(** [re.search(pattern, text)] is not None *)
Definition search (pattern : regex) (text : string) : bool :=
  existsb (fun alt => contains alt text) pattern.

End Re.

(* ===================================================================== *)
(** * Text matching of SQLite: [lower] and [LIKE] *)
(* ===================================================================== *)

Module Sql.

(** [lower()] of SQLite: ASCII letters only. *)
Definition lower_ascii (c : ascii) : ascii :=
  let n := nat_of_ascii c in
  if (Nat.leb 65 n && Nat.leb n 90)%bool then ascii_of_nat (n + 32) else c.

Fixpoint lower (s : string) : string :=
  match s with
  | EmptyString => EmptyString
  | String c rest => String (lower_ascii c) (lower rest)
  end.

(** One UTF-8 character off the front of a text, as [_] consumes it: a lead
    byte of a multi-byte sequence takes its continuation bytes with it. *)
Fixpoint drop_continuation (s : string) : string :=
  match s with
  | EmptyString => EmptyString
  | String c rest =>
      let n := nat_of_ascii c in
      if (Nat.leb 128 n && Nat.leb n 191)%bool then drop_continuation rest else s
  end.

Definition skip_char (s : string) : option string :=
  match s with
  | EmptyString => None
  | String c rest =>
      if Nat.leb 192 (nat_of_ascii c) then Some (drop_continuation rest) else Some rest
  end.

(** [text LIKE pattern] without an escape character: [%] matches any run of
    characters, [_] exactly one, anything else itself. *)
Fixpoint like (pattern : string) : string -> bool :=
  match pattern with
  | EmptyString => fun text =>
      match text with EmptyString => true | String _ _ => false end
  | String c p =>
      if Ascii.eqb c "%" then
        fix star (text : string) : bool :=
          like p text
          || match text with
             | EmptyString => false
             | String _ rest => star rest
             end
      else if Ascii.eqb c "_" then fun text =>
        match skip_char text with
        | Some rest => like p rest
        | None => false
        end
      else fun text =>
        match text with
        | EmptyString => false
        | String d rest => Ascii.eqb c d && like p rest
        end
  end.


(** [column.ilike(pattern)], rendered for SQLite as
    [lower(column) LIKE lower(pattern)]. *)
Definition ilike (column pattern : string) : bool :=
  like (lower pattern) (lower column).

End Sql.

(* ===================================================================== *)
(** * An executable instance of the library interface *)
(* ===================================================================== *)

Module AsciiLib.

(** ** Calendar arithmetic of [datetime] *)

Definition is_leap (y : Z) : bool :=
  (y mod 4 =? 0) && (negb (y mod 100 =? 0) || (y mod 400 =? 0)).

Definition days_before_year (y : Z) : Z :=
  let p := y - 1 in p * 365 + p / 4 - p / 100 + p / 400.

Definition days_in_month (y m : Z) : Z :=
  if m =? 2 then (if is_leap y then 29 else 28)
  else if (m =? 4) || (m =? 6) || (m =? 9) || (m =? 11) then 30
  else 31.

Definition days_before_month (y m : Z) : Z :=
  nth (Z.to_nat m) [0; 0; 31; 59; 90; 120; 151; 181; 212; 243; 273; 304; 334] 0
  + (if (2 <? m) && is_leap y then 1 else 0).

Definition ymd2ord (y m d : Z) : Z :=
  days_before_year y + days_before_month y m + d.

Definition ord2ymd (ordinal : Z) : Z * Z * Z :=
  let n := ordinal - 1 in
  let n400 := n / 146097 in
  let n := n mod 146097 in
  let n100 := n / 36524 in
  let n := n mod 36524 in
  let n4 := n / 1461 in
  let n := n mod 1461 in
  let n1 := n / 365 in
  let n := n mod 365 in
  let year := n400 * 400 + 1 + n100 * 100 + n4 * 4 + n1 in
  if (n1 =? 4) || (n100 =? 4) then (year - 1, 12, 31)
  else
    let month := Z.shiftr (n + 50) 5 in
    let preceding := days_before_month year month in
    if n <? preceding then
      (year, month - 1, n - (preceding - days_in_month year (month - 1)) + 1)
    else (year, month, n - preceding + 1).

(** ** Decimal digits *)

Definition digit (c : ascii) : option Z :=
  let n := nat_of_ascii c in
  if (Nat.leb 48 n && Nat.leb n 57)%bool then Some (Z.of_nat (n - 48)) else None.

Definition in_range (lo hi : Z) (c : ascii) : option Z :=
  match digit c with
  | Some v => if (lo <=? v) && (v <=? hi) then Some v else None
  | None => None
  end.

Fixpoint zero_padded (width : nat) (n : Z) : string :=
  match width with
  | O => ""
  | S w => zero_padded w (n / 10)
           ++ String (ascii_of_nat (48 + Z.to_nat (n mod 10))) ""
  end.

(** ** [strptime] with the format [%Y-%m-%d] *)

Definition value_error (msg : string) : exn := Exn "ValueError" msg.

(** [%m] followed by the dash: [(1[0-2]|0[1-9]|[1-9])-], the alternatives
    tried in this order. *)
Definition parse_month (s : string) : option (Z * string) :=
  match s with
  | String a (String b (String "-" rest)) =>
      match in_range 1 1 a, in_range 0 2 b with
      | Some _, Some v => Some (10 + v, rest)
      | _, _ =>
          match in_range 0 0 a, in_range 1 9 b with
          | Some _, Some v => Some (v, rest)
          | _, _ => None
          end
      end
  | String a (String "-" rest) =>
      match in_range 1 9 a with
      | Some v => Some (v, rest)
      | None => None
      end
  | _ => None
  end.

(** [%d]: [(3[0-1]|[1-2]\d|0[1-9]|[1-9]| [1-9])], the first alternative that
    matches. *)
Definition parse_day (s : string) : option (Z * string) :=
  let two :=
    match s with
    | String a (String b rest) =>
        match in_range 3 3 a, in_range 0 1 b with
        | Some _, Some v => Some (30 + v, rest)
        | _, _ =>
            match in_range 1 2 a, digit b with
            | Some u, Some v => Some (10 * u + v, rest)
            | _, _ =>
                match in_range 0 0 a, in_range 1 9 b with
                | Some _, Some v => Some (v, rest)
                | _, _ => None
                end
            end
        end
    | _ => None
    end in
  match two with
  | Some r => Some r
  | None =>
      match s with
      | String a rest =>
          match in_range 1 9 a with
          | Some v => Some (v, rest)
          | None =>
              match rest with
              | String b rest' =>
                  if Ascii.eqb a " " then
                    match in_range 1 9 b with
                    | Some v => Some (v, rest')
                    | None => None
                    end
                  else None
              | EmptyString => None
              end
          end
      | EmptyString => None
      end
  end.

Definition strptime (s : string) : result datetime :=
  let no_match := Raise (value_error "time data does not match format '%Y-%m-%d'") in
  match s with
  | String a (String b (String c (String d (String "-" rest)))) =>
      match digit a, digit b, digit c, digit d with
      | Some a, Some b, Some c, Some d =>
          let year := 1000 * a + 100 * b + 10 * c + d in
          match parse_month rest with
          | Some (month, rest) =>
              match parse_day rest with
              | Some (day, EmptyString) =>
                  if year =? 0 then
                    Raise (value_error "year 0 is out of range")
                  else if day <=? days_in_month year month then
                    Return (combine (ymd2ord year month day) time_min)
                  else Raise (value_error "day is out of range for month")
              | Some (_, String _ _) =>
                  Raise (value_error "unconverted data remains")
              | None => no_match
              end
          | None => no_match
          end
      | _, _, _, _ => no_match
      end
  | _ => no_match
  end.

(** ** [isoformat] *)

Definition iso (dt : datetime) : string :=
  let '(y, m, d) := ord2ymd (dt_date dt) in
  let us := microseconds (dt_time dt) in
  let secs := us / 1000000 in
  zero_padded 4 y ++ "-" ++ zero_padded 2 m ++ "-" ++ zero_padded 2 d
  ++ "T" ++ zero_padded 2 (secs / 3600) ++ ":" ++ zero_padded 2 (secs / 60 mod 60)
  ++ ":" ++ zero_padded 2 (secs mod 60)
  ++ (if us mod 1000000 =? 0 then "" else "." ++ zero_padded 6 (us mod 1000000)).

#[export] Instance ascii_lib : PyLib :=
  {| strptime_ymd := strptime;
     isoformat := iso;
     str_lower := Sql.lower;
     column_has_no_any :=
       "Neither 'AnnotatedColumn' object nor 'Comparator' object has an attribute 'any'" |}.

End AsciiLib.

(* ===================================================================== *)
(** * The meeting store: database/models.py *)
(* ===================================================================== *)

Module Store.

(** [database/models.py], class [Meeting]. A NULL [participants] is the empty
    list, as [to_dict] reads it. *)
Record Meeting := {
  id : Z;
  title : string;
  location : string;
  scheduled_date : datetime;
  participants : list string;
  weather_conditions : pyval;
  weather_decision : option string;
  status : option string;
  created_at : option datetime
}.

(** [database/models.py], class [Conversation], as [_save_conversation]
    fills it. *)
Record Conversation := {
  conversation_id : option string;
  user_message : string;
  agent_response : pyval;
  agent_type : string;
  confidence : pyval
}.

(** The state behind a [Session]: the rows of the two tables and the objects
    added since the last commit. *)
Record Session := {
  meetings : list Meeting;
  conversations : list Conversation;
  pending : list Conversation
}.

(** [scheduled_date >= start AND scheduled_date <= end] *)
Definition between (start stop : datetime) (m : Meeting) : bool :=
  datetime_leb start (scheduled_date m) && datetime_leb (scheduled_date m) stop.

(** [query.limit(n)] *)
Definition limit_rows {A} (n : nat) (rows : list A) : list A := firstn n rows.

(** [query.order_by(Meeting.scheduled_date.asc())]: a stable insertion sort,
    ties stay in row order. *)
Fixpoint insert_by_date (m : Meeting) (sorted : list Meeting) : list Meeting :=
  match sorted with
  | [] => [m]
  | x :: rest =>
      if datetime_leb (scheduled_date m) (scheduled_date x)
      then m :: sorted
      else x :: insert_by_date m rest
  end.

Definition order_by_scheduled_date (rows : list Meeting) : list Meeting :=
  fold_right insert_by_date [] rows.

End Store.
Export Store.

(** [Meeting.to_dict()] *)
Module MeetingDict.
Record t := {
  id : Z;
  title : string;
  location : string;
  scheduled_date : string;
  participants : list string;
  weather_conditions : pyval;
  weather_decision : option string;
  status : option string;
  created_at : option string
}.
End MeetingDict.

Definition to_dict `{PyLib} (m : Meeting) : MeetingDict.t :=
  {| MeetingDict.id := id m;
     MeetingDict.title := title m;
     MeetingDict.location := location m;
     MeetingDict.scheduled_date := isoformat (scheduled_date m);
     MeetingDict.participants := participants m;
     MeetingDict.weather_conditions := weather_conditions m;
     MeetingDict.weather_decision := weather_decision m;
     MeetingDict.status := status m;
     MeetingDict.created_at := option_map isoformat (created_at m) |}.

(* ===================================================================== *)
(** * agents/database_agent.py *)
(* ===================================================================== *)

Module DatabaseAgent.

(** [self.patterns]; every key read below is in the table. *)
Definition patterns : list (string * Re.regex) :=
  [ ("tomorrow", ["tomorrow"; "next day"; "day after"]);
    ("today", ["today"; "current day"; "now"]);
    ("week", ["week"; "next week"; "this week"; "weekly"]);
    ("all", ["all"; "every"; "list"; "show"]);
    ("review", ["review"; "retrospective"; "check-in"]);
    ("team", ["team"; "group"; "department"]);
    ("scheduled", ["scheduled"; "planned"; "arranged"]) ].

Definition pattern (key : string) : Re.regex :=
  match find (fun kv => String.eqb (fst kv) key) patterns with
  | Some kv => snd kv
  | None => []
  end.

(** The dictionary [_extract_date_filter] builds; a key it leaves out is
    [None]. *)
Record DateFilter := {
  df_type : option string;
  df_date : option date;
  df_start_date : option datetime;
  df_end_date : option datetime
}.

Definition empty_filter : DateFilter :=
  {| df_type := None; df_date := None; df_start_date := None; df_end_date := None |}.

Record Params := {
  date_filter : option DateFilter;
  meeting_type : option string;
  limit : option nat
}.

Definition _extract_date_filter (now : datetime) (query : string) : result DateFilter :=
  let today := dt_date now in
  if Re.search (pattern "today") query then
    Return {| df_type := Some "today";
              df_date := Some today;
              df_start_date := Some (combine today time_min);
              df_end_date := Some (combine today time_max) |}
  else if Re.search (pattern "tomorrow") query then
    let! tomorrow := date_add today 1 in
    Return {| df_type := Some "tomorrow";
              df_date := Some tomorrow;
              df_start_date := Some (combine tomorrow time_min);
              df_end_date := Some (combine tomorrow time_max) |}
  else if Re.search (pattern "week") query then
    let! end_date := date_add today 7 in
    Return {| df_type := Some "week";
              df_date := None;
              df_start_date := Some (combine today time_min);
              df_end_date := Some (combine end_date time_max) |}
  else
    Return {| df_type := Some "all";
              df_date := None; df_start_date := None; df_end_date := None |}.

Definition _extract_meeting_type (query : string) : string :=
  if Re.search (pattern "review") query then "review"
  else if Re.search (pattern "team") query then "team"
  else "any".

Definition _parse_query `{PyLib} (now : datetime) (query : string)
  : result (string * Params) :=
  let query_lower := str_lower query in
  let query_type :=
    if Re.search ["show"; "list"; "get"; "find"] query_lower then "get_meetings"
    else if Re.search ["do we have"; "is there"; "any meeting"] query_lower then "check_meeting"
    else if Re.search ["how many"; "count"; "number"] query_lower then "count_meetings"
    else "unknown" in
  let! df := _extract_date_filter now query_lower in
  let params := {| date_filter := Some df;
                   meeting_type := Some (_extract_meeting_type query_lower);
                   limit := Some 10%nat |} in
  Return (query_type, params).

(** The dictionaries [_get_meetings_query] and [get_meetings] return. *)
Record MeetingRow := {
  row_id : Z;
  row_title : string;
  row_location : string;
  row_scheduled_date : string;
  row_participants : list string;
  row_status : option string
}.

Definition row_of `{PyLib} (m : Meeting) : MeetingRow :=
  {| row_id := id m;
     row_title := title m;
     row_location := location m;
     row_scheduled_date := isoformat (scheduled_date m);
     row_participants := participants m;
     row_status := status m |}.

(** [d[key]] on an optional entry *)
Definition getitem {A} (key : string) (entry : option A) : result A :=
  match entry with
  | Some v => Return v
  | None => Raise (Exn "KeyError" ("'" ++ key ++ "'"))
  end.

Definition is_type (t : option string) (name : string) : bool :=
  match t with
  | Some s => String.eqb s name
  | None => false
  end.

(** The condition of the [review] branch. *)
Definition review_condition (m : Meeting) : bool :=
  Sql.ilike (title m) "%review%" || Sql.ilike (title m) "%retro%".

(** [Meeting.participants.any()]: [participants] is a [Column(JSON)]
    ([database/models.py]), not a relationship, and the comparator of a JSON
    column has no [any]; the call raises AttributeError while the condition
    is being built, whatever the store holds. *)
Definition participants_any `{PyLib} : result (Meeting -> bool) :=
  Raise (Exn "AttributeError" column_has_no_any).

(** The condition of the [team] branch,
    [Meeting.title.ilike('%team%') | Meeting.participants.any()]: both
    operands are evaluated before [|] joins them. *)
Definition team_condition `{PyLib} : result (Meeting -> bool) :=
  let title_has_team := fun m => Sql.ilike (title m) "%team%" in
  let! has_participants := participants_any in
  Return (fun m => title_has_team m || has_participants m).

Definition _get_meetings_query `{PyLib} (params : Params) (db_session : Session)
  : result (list MeetingRow) :=
  let query := meetings db_session in
  (* Apply date filter *)
  let date_filter := default empty_filter (date_filter params) in
  let t := df_type date_filter in
  let! query :=
    if is_type t "today" || is_type t "tomorrow" || is_type t "week" then
      let! start := getitem "start_date" (df_start_date date_filter) in
      let! stop := getitem "end_date" (df_end_date date_filter) in
      Return (List.filter (between start stop) query)
    else Return query in
  (* Apply meeting type filter *)
  let meeting_type := meeting_type params in
  let! query :=
    if is_type meeting_type "review" then Return (List.filter review_condition query)
    else if is_type meeting_type "team" then
      let! condition := team_condition in
      Return (List.filter condition query)
    else Return query in
  (* Execute query *)
  let meetings := limit_rows (default 10%nat (limit params)) query in
  Return (map row_of meetings).

Record CheckResult := {
  check_exists : bool;
  check_count : nat;
  check_meetings : list MeetingRow
}.

Definition _check_meeting_query `{PyLib} (params : Params) (db_session : Session)
  : result CheckResult :=
  let! meetings := _get_meetings_query params db_session in
  Return {| check_exists := Nat.ltb 0 (length meetings);
            check_count := length meetings;
            check_meetings := meetings |}.

Record CountResult := {
  count : nat;
  period : string;
  count_meeting_type : string
}.

Definition _count_meetings_query `{PyLib} (params : Params) (db_session : Session)
  : result CountResult :=
  let! meetings := _get_meetings_query params db_session in
  Return {| count := length meetings;
            period := default "all" (df_type (default empty_filter (date_filter params)));
            count_meeting_type := default "any" (meeting_type params) |}.

Definition get_meetings `{PyLib} (now : datetime) (db_session : Session)
    (date : option string) : list MeetingRow :=
  let query := meetings db_session in
  let query :=
    if truthy date then
      let date := default "" date in
      let target :=
        if String.eqb date "today" then Return (dt_date now)
        else if String.eqb date "tomorrow" then date_add (dt_date now) 1
        else let! parsed := strptime_ymd date in Return (dt_date parsed) in
      match target with
      | Return target_date =>
          List.filter (between (combine target_date time_min)
                          (combine target_date time_max)) query
      | Raise _ => query          (* except: pass *)
      end
    else query in
  map row_of query.

(** What [process_query] puts under the key [result]. *)
Inductive QueryResult :=
| Rows (meetings : list MeetingRow)
| Checked (r : CheckResult)
| Counted (r : CountResult)
| NotUnderstood (error : string).

(** The two dictionaries [process_query] returns: the answer, and the one of
    its [except]. *)
Inductive Reply :=
| Answer (query_type : string) (parameters : Params) (result : QueryResult)
    (timestamp : string)
| Failed (error : string) (query : string).

(** [db_session.query(Meeting)], the first statement of
    [_get_meetings_query]: the default [db_session=None] has no [query]. *)
Definition session_of (db_session : option Session) : result Session :=
  match db_session with
  | Some s => Return s
  | None => Raise (Exn "AttributeError" "'NoneType' object has no attribute 'query'")
  end.

(** [now] is the clock reading of [_extract_date_filter], [answered] the one
    of the timestamp. *)
Definition process_query `{PyLib} (now answered : datetime) (query : string)
    (db_session : option Session) : Reply :=
  match
    (let! parsed := _parse_query now query in
     let query_type := fst parsed in
     let params := snd parsed in
     let! result :=
       if String.eqb query_type "get_meetings" then
         let! db := session_of db_session in
         let! rows := _get_meetings_query params db in
         Return (Rows rows)
       else if String.eqb query_type "check_meeting" then
         let! db := session_of db_session in
         let! r := _check_meeting_query params db in
         Return (Checked r)
       else if String.eqb query_type "count_meetings" then
         let! db := session_of db_session in
         let! r := _count_meetings_query params db in
         Return (Counted r)
       else Return (NotUnderstood "Could not understand query") in
     Return (Answer query_type params result (isoformat answered)))
  with
  | Return reply => reply
  | Raise e => Failed ("Query processing error: " ++ exn_str e) query
  end.

End DatabaseAgent.

(* ===================================================================== *)
(** * tools/database_tool.py *)
(* ===================================================================== *)

Module DatabaseTool.

(** The [date_filter] entry of the parameters: keys [type], [start], [end]. *)
Record DateFilter := {
  df_type : option string;
  df_start : option datetime;
  df_end : option datetime
}.

Definition empty_filter : DateFilter :=
  {| df_type := None; df_start := None; df_end := None |}.

Record Params := {
  date_filter : option DateFilter;
  meeting_type : option string;
  location : option string;
  limit : option nat
}.

Record FiltersApplied := {
  date_range : option string;
  applied_meeting_type : option string;
  applied_location : option string
}.

Record GetResult := {
  count : nat;
  meetings : list MeetingDict.t;
  filters_applied : FiltersApplied
}.

Definition is_type (t : option string) (name : string) : bool :=
  match t with
  | Some s => String.eqb s name
  | None => false
  end.

(** [Meeting.location.ilike(f'%{location}%')] *)
Definition location_condition (location : string) (m : Meeting) : bool :=
  Sql.ilike (Store.location m) ("%" ++ location ++ "%").

Definition _execute_get_meetings `{PyLib} (params : Params) (db : Session) : GetResult :=
  let query := Store.meetings db in
  (* Apply date filter *)
  let date_filter := default empty_filter (date_filter params) in
  let query :=
    match df_start date_filter, df_end date_filter with
    | Some start, Some stop => List.filter (between start stop) query
    | _, _ => query
    end in
  (* Apply meeting type filter *)
  let meeting_type := meeting_type params in
  let query :=
    if is_type meeting_type "review" then
      List.filter (fun m => Sql.ilike (title m) "%review%") query
    else if is_type meeting_type "team" then
      List.filter (fun m => Sql.ilike (title m) "%team%") query
    else query in
  (* Apply location filter *)
  let location := location params in
  let query :=
    if truthy location then List.filter (location_condition (default "" location)) query
    else query in
  (* Execute query *)
  let meetings :=
    limit_rows (default 10%nat (limit params)) (order_by_scheduled_date query) in
  {| count := length meetings;
     meetings := map to_dict meetings;
     filters_applied := {| date_range := df_type date_filter;
                           applied_meeting_type := meeting_type;
                           applied_location := location |} |}.

Record CountResult := {
  cr_count : nat;
  cr_period : string;
  cr_meeting_type : string;
  cr_location : string
}.

Definition _execute_count_meetings `{PyLib} (params : Params) (db : Session) : CountResult :=
  let result := _execute_get_meetings params db in
  {| cr_count := count result;
     cr_period := default "all" (df_type (default empty_filter (date_filter params)));
     cr_meeting_type := default "all" (meeting_type params);
     cr_location := default "all" (location params) |}.

Definition get_meetings `{PyLib} (now : datetime) (db : Session)
    (date location : option string) : list MeetingDict.t :=
  let query := Store.meetings db in
  let query :=
    if truthy date then
      let date := default "" date in
      let target :=
        if String.eqb date "today" then Return (dt_date now)
        else if String.eqb date "tomorrow" then date_add (dt_date now) 1
        else if String.eqb date "yesterday" then date_add (dt_date now) (-1)
        else let! parsed := strptime_ymd date in Return (dt_date parsed) in
      match target with
      | Return target_date =>
          List.filter (between (combine target_date time_min)
                          (combine target_date time_max)) query
      | Raise _ => query          (* except: pass *)
      end
    else query in
  let query :=
    if truthy location then List.filter (location_condition (default "" location)) query
    else query in
  map to_dict (order_by_scheduled_date query).

Record CheckResult := {
  ck_exists : bool;
  ck_count : nat;
  ck_message : string
}.

Definition _execute_check_meeting `{PyLib} (params : Params) (db : Session) : CheckResult :=
  let result := _execute_get_meetings params db in
  {| ck_exists := Nat.ltb 0 (count result);
     ck_count := count result;
     ck_message := if Nat.ltb 0 (count result)
                   then str_of_nat (count result) ++ " meeting(s) found"
                   else "No meetings found" |}.

(** The two methods [natural_language_query] calls and the file leaves out:
    each may return or raise. *)
Record DatabaseTool := {
  _parse_query_type : string -> result string;
  _extract_parameters : string -> result Params
}.

(** What [natural_language_query] puts under the key [result]. *)
Inductive QueryResult :=
| Got (r : GetResult)
| Counted (r : CountResult)
| Checked (r : CheckResult)
| NotUnderstood (error : string).

(** The two dictionaries [natural_language_query] returns. *)
Inductive Reply :=
| Answer (query_type : string) (parameters : Params) (result : QueryResult)
    (original_query : string) (timestamp : string)
| Failed (error : string) (original_query : string).

Definition natural_language_query `{PyLib} (self : DatabaseTool) (now : datetime)
    (query : string) (db : Session) : Reply :=
  match
    (let query_lower := str_lower query in
     (* Parse query type *)
     let! query_type := _parse_query_type self query_lower in
     (* Extract parameters *)
     let! params := _extract_parameters self query_lower in
     (* Execute appropriate query *)
     let result :=
       if String.eqb query_type "get_meetings" then
         Got (_execute_get_meetings params db)
       else if String.eqb query_type "count_meetings" then
         Counted (_execute_count_meetings params db)
       else if String.eqb query_type "check_meeting" then
         Checked (_execute_check_meeting params db)
       else NotUnderstood "Could not understand query type" in
     Return (Answer query_type params result query (isoformat now)))
  with
  | Return reply => reply
  | Raise e => Failed ("Query processing error: " ++ exn_str e) query
  end.

End DatabaseTool.

(* ===================================================================== *)
(** * agents/scheduling_agent.py *)
(* ===================================================================== *)

Module SchedulingAgent.

Definition _parse_date `{PyLib} (now : datetime) (date_str : string) : result datetime :=
  let today := dt_date now in
  if String.eqb date_str "today" then
    Return (combine today time_min)
  else if String.eqb date_str "tomorrow" then
    let! tomorrow := date_add today 1 in
    Return (combine tomorrow time_min)
  else if String.eqb date_str "yesterday" then
    let! yesterday := date_add today (-1) in
    Return (combine yesterday time_min)
  else
    (* Try to parse date string *)
    try_except (strptime_ymd date_str)
      (fun _ =>
         (* Default to tomorrow *)
         let! tomorrow := date_add today 1 in
         Return (combine tomorrow time_min)).

(** A weather report: the dictionary [get_weather] returns. *)
Abbreviation WeatherData := (gmap string pyval).

(** The [weather_agent] the constructor receives: its two methods may return
    or raise; they do not touch the meeting store. *)
Record WeatherAgent := {
  get_weather : string -> string -> result WeatherData;
  is_good_weather : WeatherData -> result bool
}.

Definition _check_existing_meeting `{PyLib} (now : datetime) (db : Session)
    (date location title : string) : result (option Meeting) :=
  let! target_date := _parse_date now date in
  Return (find (fun m => String.eqb (Store.title m) title
                         && String.eqb (Store.location m) location
                         && datetime_eqb (scheduled_date m) target_date)
            (meetings db)).

(** [weather_data.get(key, default)] *)
Definition get_or (weather_data : WeatherData) (key : string) (default : pyval) : pyval :=
  match weather_data !! key with
  | Some v => v
  | None => default
  end.

(** [v.lower()]: only a string has it. *)
Definition lower_of `{PyLib} `{PyDynamic} (v : pyval) : result string :=
  match v with
  | PyStr s => Return (str_lower s)
  | _ => Raise (Exn "AttributeError"
                  ("'" ++ type_name v ++ "' object has no attribute 'lower'"))
  end.

(** [left > right] on operands whose types do not compare *)
Definition type_error (left right : string) : exn :=
  Exn "TypeError"
    ("'>' not supported between instances of '" ++ left ++ "' and '" ++ right ++ "'").

(** [v > 20]: an int is compared as it is, a bool as 0 or 1. *)
Definition exceeds_20 `{PyDynamic} (v : pyval) : result bool :=
  match v with
  | PyInt z => Return (20 <? z)
  | PyBool _ => Return false
  | PyJson text => json_gt text "20"
  | PyNone | PyStr _ => Raise (type_error (type_name v) "int")
  end.

(** [v > 0.3]: an int exceeds 0.3 when it is at least 1. *)
Definition exceeds_0_3 `{PyDynamic} (v : pyval) : result bool :=
  match v with
  | PyInt z => Return (0 <? z)
  | PyBool b => Return b
  | PyJson text => json_gt text "0.3"
  | PyNone | PyStr _ => Raise (type_error (type_name v) "float")
  end.

Definition _get_weather_reason `{PyLib} `{PyDynamic} (weather_data : WeatherData)
  : result string :=
  let! main := lower_of (get_or weather_data "main" (PyStr "")) in
  let! description := lower_of (get_or weather_data "description" (PyStr "")) in
  if Re.contains "rain" main || Re.contains "rain" description then
    Return "High probability of rain"
  else if Re.contains "storm" main || Re.contains "storm" description then
    Return "Stormy conditions expected"
  else if Re.contains "snow" main || Re.contains "snow" description then
    Return "Snowfall expected"
  else
    let! windy := exceeds_20 (get_or weather_data "wind_speed" (PyInt 0)) in
    if windy then Return "High wind speeds"
    else
      let! wet := exceeds_0_3 (get_or weather_data "pop" (PyInt 0)) in
      if wet then Return "High precipitation probability"
      else Return "Unfavorable weather conditions".

(** The dictionary [schedule_meeting] returns; a key it leaves out is
    [None]. *)
Record ScheduleResult := {
  sr_status : string;
  sr_message : string;
  sr_meeting_id : option Z;
  sr_weather_decision : option string;
  sr_weather_data : option WeatherData;
  sr_reason : option string
}.

(** The id SQLite gives a new row: 1 in an empty table, one more than the
    largest id otherwise (ids stay below the largest rowid). *)
Definition next_id (rows : list Meeting) : Z :=
  match rows with
  | [] => 1
  | m :: rest => 1 + fold_right (fun x acc => Z.max (Store.id x) acc) (Store.id m) rest
  end.

Section Schedule.

Context `{PyLib} `{PyDynamic}.

Variable self : WeatherAgent.

(** What the database answers when the new meeting is committed: [None]
    when the commit goes through, the exception it raises otherwise. *)
Variable commit_fault : Session -> Meeting -> option exn.

(** The clock readings of the call, in the order they are taken: the one of
    [_check_existing_meeting], the one of the [_parse_date] that dates the
    new row, and the [utcnow] of the column default [created_at]. *)
Variables now later utcnow : datetime.

(** The body of the [try] of [schedule_meeting], on the store a fresh
    [SessionLocal()] sees; only the commit changes the store. *)
Definition schedule_try (location date meeting_title : string)
    (participants : option (list string)) (db : Session)
  : result (ScheduleResult * Session) :=
  (* Get weather for the specified date and location *)
  let! weather_data := get_weather self location date in
  match weather_data !! "error" with
  | Some error =>
      Return ({| sr_status := "error";
                 sr_message := "Could not get weather data: " ++ py_str error;
                 sr_meeting_id := None; sr_weather_decision := None;
                 sr_weather_data := None; sr_reason := None |}, db)
  | None =>
      (* Determine if weather is good *)
      let! is_good := is_good_weather self weather_data in
      (* Check if meeting already exists *)
      let! existing_meeting :=
        _check_existing_meeting now db date location meeting_title in
      match existing_meeting with
      | Some existing =>
          Return ({| sr_status := "exists";
                     sr_message := "A meeting '" ++ meeting_title
                                   ++ "' is already scheduled for " ++ date
                                   ++ " in " ++ location ++ ".";
                     sr_meeting_id := Some (Store.id existing);
                     sr_weather_decision := Some (if is_good then "good" else "bad");
                     sr_weather_data := Some weather_data;
                     sr_reason := None |}, db)
      | None =>
          (* Create meeting if weather is good *)
          if is_good then
            let! scheduled := _parse_date later date in
            let meeting :=
              {| Store.id := next_id (meetings db);
                 Store.title := meeting_title;
                 Store.location := location;
                 Store.scheduled_date := scheduled;
                 Store.participants := default [] participants;
                 Store.weather_conditions := PyJson (json_dumps weather_data);
                 Store.weather_decision := None;
                 Store.status := Some "scheduled";
                 Store.created_at := Some utcnow |} in
            match commit_fault db meeting with
            | Some e => Raise e
            | None =>
                Return ({| sr_status := "scheduled";
                           sr_message := "Meeting '" ++ meeting_title
                                         ++ "' scheduled for " ++ date
                                         ++ " in " ++ location ++ ".";
                           sr_meeting_id := Some (Store.id meeting);
                           sr_weather_decision := Some "good";
                           sr_weather_data := Some weather_data;
                           sr_reason := None |},
                        {| meetings := meetings db ++ [meeting];
                           conversations := conversations db;
                           pending := pending db |})
            end
          else
            let! reason := _get_weather_reason weather_data in
            Return ({| sr_status := "cancelled";
                       sr_message := "Meeting not scheduled due to bad weather in "
                                     ++ location ++ " on " ++ date ++ ".";
                       sr_meeting_id := None;
                       sr_weather_decision := Some "bad";
                       sr_weather_data := Some weather_data;
                       sr_reason := Some reason |}, db)
      end
  end.

Definition schedule_meeting (location date meeting_title : string)
    (participants : option (list string)) (db : Session)
  : ScheduleResult * Session :=
  match schedule_try location date meeting_title participants db with
  | Return answer => answer
  | Raise e =>
      ({| sr_status := "error";
          sr_message := "Error scheduling meeting: " ++ exn_str e;
          sr_meeting_id := None; sr_weather_decision := None;
          sr_weather_data := None; sr_reason := None |}, db)
  end.

End Schedule.

End SchedulingAgent.

(* ===================================================================== *)
(** * agents/weather_agent.py: the judgement the scheduling agent asks for *)
(* ===================================================================== *)

Module WeatherAgent.

Import SchedulingAgent.

Definition bad_conditions : list string :=
  ["rain"; "storm"; "thunderstorm"; "snow"; "extreme"].

(** The body of the [try] of [is_good_weather]. *)
Definition is_good_weather_try `{PyLib} `{PyDynamic} (weather_data : WeatherData)
  : result bool :=
  let! main := lower_of (get_or weather_data "main" (PyStr "")) in
  let! description := lower_of (get_or weather_data "description" (PyStr "")) in
  if existsb (fun condition =>
                Re.contains condition main || Re.contains condition description)
       bad_conditions
  then Return false
  else
    (* Check precipitation probability *)
    let! wet := exceeds_0_3 (get_or weather_data "pop" (PyInt 0)) in
    if wet then Return false
    else
      (* Check wind speed *)
      let! windy := exceeds_20 (get_or weather_data "wind_speed" (PyInt 0)) in
      if windy then Return false else Return true.

Definition is_good_weather `{PyLib} `{PyDynamic} (weather_data : WeatherData) : bool :=
  match is_good_weather_try weather_data with
  | Return good => good
  | Raise _ => true        (* Default to good weather if can't determine *)
  end.

End WeatherAgent.

(* ===================================================================== *)
(** * agents/orchestrator.py *)
(* ===================================================================== *)

Module Orchestrator.

(** A response dictionary. *)
Abbreviation Response := (gmap string pyval).

(** A [Session] is a mutable object passed by reference: [db] is the
    reference (or None), and what the session holds is the state every call
    may change, also a call that ends in an exception. *)
Inductive SessionRef := the_session.

Definition M (A : Type) : Type := Session -> result A * Session.

Definition ret {A} (a : A) : M A := fun s => (Return a, s).

Definition lift {A} (r : result A) : M A := fun s => (r, s).

Definition bindM {A B} (c : M A) (k : A -> M B) : M B :=
  fun s =>
    match c s with
    | (Return a, s') => k a s'
    | (Raise e, s') => (Raise e, s')
    end.

(** [try: body / except Exception as e: handler e] *)
Definition try_exceptM {A} (body : M A) (handler : exn -> M A) : M A :=
  fun s =>
    match body s with
    | (Return a, s') => (Return a, s')
    | (Raise e, s') => handler e s'
    end.

Notation "'let*' x ':=' c 'in' k" := (bindM c (fun x => k))
  (at level 10, x name, c at level 100, k at level 200).

(** The methods of [OrchestratorAgent] that [process] calls and the file
    leaves out: each may return or raise, and the two that receive [db] may
    change the session. A result that is no dictionary makes [response.get]
    or [response.update] raise inside the [try]; it counts as an exception of
    the method. *)
Record OrchestratorAgent := {
  _determine_agent : string -> result string;
  _handle_weather : string -> result Response;
  _handle_document : string -> result Response;
  _handle_scheduling : string -> option SessionRef -> M Response;
  _handle_database : string -> option SessionRef -> M Response;
  _handle_general : string -> result Response
}.

(** [response.get(key, default)] *)
Definition dict_get (response : Response) (key : string) (default : pyval) : pyval :=
  match response !! key with
  | Some v => v
  | None => default
  end.

(** [response.update({...})], the keys written in the order of the literal. *)
Definition dict_update (response : Response) (items : list (string * pyval)) : Response :=
  fold_left (fun acc kv => <[fst kv := snd kv]> acc) items response.

Definition opt_str (o : option string) : pyval :=
  match o with
  | Some s => PyStr s
  | None => PyNone
  end.

Section Process.

Context `{PyLib}.

(** What the database answers when the pending rows are written: [None]
    when the commit goes through, the exception it raises otherwise. *)
Variable commit_fault : Session -> option exn.

(** [db.add(obj)] *)
Definition session_add (obj : Conversation) : M unit :=
  fun s => (Return tt,
            {| meetings := meetings s;
               conversations := conversations s;
               pending := pending s ++ [obj] |}).

(** [db.commit()] *)
Definition session_commit : M unit :=
  fun s =>
    match commit_fault s with
    | Some e => (Raise e, s)
    | None => (Return tt,
               {| meetings := meetings s;
                  conversations := conversations s ++ pending s;
                  pending := [] |})
    end.

(** [db.rollback()]: the pending objects are dropped. *)
Definition session_rollback : M unit :=
  fun s => (Return tt,
            {| meetings := meetings s;
               conversations := conversations s;
               pending := [] |}).

Definition _save_conversation (db : SessionRef) (conversation_id : option string)
    (user_message : string) (agent_response : pyval) (agent_type : string)
    (confidence : pyval) : M unit :=
  try_exceptM
    (let conversation :=
       {| Store.conversation_id := conversation_id;
          Store.user_message := user_message;
          Store.agent_response := agent_response;
          Store.agent_type := agent_type;
          Store.confidence := confidence |} in
     let* _ := session_add conversation in
     session_commit)
    (fun _ =>
       (* Don't raise error - conversation saving is optional *)
       session_rollback).

Variable self : OrchestratorAgent.
Variable now : datetime.

(** The body of the [try] of [process]. *)
Definition process_try (message : string) (conversation_id : option string)
    (db : option SessionRef) : M Response :=
  (* Determine which agent to use *)
  let* agent_type := lift (_determine_agent self message) in
  (* Route to appropriate agent *)
  let* response :=
    if String.eqb agent_type "weather" then lift (_handle_weather self message)
    else if String.eqb agent_type "document" then lift (_handle_document self message)
    else if String.eqb agent_type "scheduling" then _handle_scheduling self message db
    else if String.eqb agent_type "database" then _handle_database self message db
    else lift (_handle_general self message) in
  (* Save conversation history if database is available *)
  let* _ :=
    match db with
    | Some db =>
        _save_conversation db conversation_id message
          (dict_get response "response" (PyStr ""))
          agent_type
          (dict_get response "confidence" (PyInt 0))
    | None => ret tt
    end in
  (* Add metadata *)
  ret (dict_update response
         [ ("agent_used", PyStr agent_type);
           ("conversation_id", opt_str conversation_id);
           ("timestamp", PyStr (isoformat now));
           ("original_message", PyStr message) ]).

(** The dictionary the [except] of [process] returns. *)
Definition error_response (e : exn) : Response :=
  dict_update ∅
    [ ("agent", PyStr "error");
      ("response", PyStr ("Sorry, I encountered an error: " ++ exn_str e));
      ("confidence", PyInt 0);
      ("suggestion", PyStr "Please try rephrasing your question.") ].

Definition process (message : string) (conversation_id : option string)
    (db : option SessionRef) : M Response :=
  try_exceptM (process_try message conversation_id db)
    (fun e => ret (error_response e)).

End Process.

End Orchestrator.

(* ===================================================================== *)
(** * Definitions for the statements: the specification's words, samples *)
(* ===================================================================== *)

Module Spec.

(** The yesterday markers of the specification's date rules;
    [DatabaseAgent.patterns] has no entry for them. *)
Definition yesterday_markers : Re.regex :=
  ["yesterday"; "previous day"; "day before"].

(** The client keywords of the specification's category rules;
    [DatabaseAgent.patterns] has no entry for them. *)
Definition client_keywords : Re.regex :=
  ["client"; "customer"; "partner"; "external"].


(** The date condition [_get_meetings_query] puts on a record: the range of
    a today, tomorrow or week filter, nothing for any other kind. *)
Definition within (df : DatabaseAgent.DateFilter) (m : Meeting) : bool :=
  let t := DatabaseAgent.df_type df in
  if DatabaseAgent.is_type t "today" || DatabaseAgent.is_type t "tomorrow"
     || DatabaseAgent.is_type t "week"
  then match DatabaseAgent.df_start_date df, DatabaseAgent.df_end_date df with
       | Some start, Some stop => between start stop m
       | _, _ => true
       end
  else true.

(** The four dictionaries [_extract_date_filter] can return. *)
Definition today_filter (now : datetime) : DatabaseAgent.DateFilter :=
  {| DatabaseAgent.df_type := Some "today";
     DatabaseAgent.df_date := Some (dt_date now);
     DatabaseAgent.df_start_date := Some (combine (dt_date now) time_min);
     DatabaseAgent.df_end_date := Some (combine (dt_date now) time_max) |}.

Definition tomorrow_filter (now : datetime) : DatabaseAgent.DateFilter :=
  {| DatabaseAgent.df_type := Some "tomorrow";
     DatabaseAgent.df_date := Some (dt_date now + 1);
     DatabaseAgent.df_start_date := Some (combine (dt_date now + 1) time_min);
     DatabaseAgent.df_end_date := Some (combine (dt_date now + 1) time_max) |}.

Definition week_filter (now : datetime) : DatabaseAgent.DateFilter :=
  {| DatabaseAgent.df_type := Some "week";
     DatabaseAgent.df_date := None;
     DatabaseAgent.df_start_date := Some (combine (dt_date now) time_min);
     DatabaseAgent.df_end_date := Some (combine (dt_date now + 7) time_max) |}.

Definition all_filter : DatabaseAgent.DateFilter :=
  {| DatabaseAgent.df_type := Some "all";
     DatabaseAgent.df_date := None;
     DatabaseAgent.df_start_date := None;
     DatabaseAgent.df_end_date := None |}.

(** A meeting of the sample store: everything but the title, the day and the
    participants is fixed. *)
Definition sample_meeting (n : Z) (title : string) (day : date)
    (participants : list string) : Meeting :=
  {| Store.id := n;
     Store.title := title;
     Store.location := "London";
     Store.scheduled_date := Datetime day (Time 43200000000);
     Store.participants := participants;
     Store.weather_conditions := PyNone;
     Store.weather_decision := None;
     Store.status := Some "scheduled";
     Store.created_at := None |}.

Definition sample_store (rows : list Meeting) : Session :=
  {| meetings := rows; conversations := []; pending := [] |}.

(** Monday 2024-01-01, 09:30. *)
Definition sample_now : datetime := Datetime 738886 (Time 34200000000).

(** An orchestrator whose weather handler fails: every message is a weather
    question, and the weather service is down. *)
Definition failing_weather : Orchestrator.OrchestratorAgent :=
  {| Orchestrator._determine_agent := fun _ => Return "weather";
     Orchestrator._handle_weather := fun _ =>
       Raise (Exn "ConnectionError" "weather service unavailable");
     Orchestrator._handle_document := fun _ => Return ∅;
     Orchestrator._handle_scheduling := fun _ _ => Orchestrator.ret ∅;
     Orchestrator._handle_database := fun _ _ => Orchestrator.ret ∅;
     Orchestrator._handle_general := fun _ => Return ∅ |}.

(** The handler [process] routes a message to. *)
Definition routed (self : Orchestrator.OrchestratorAgent) (agent_type message : string)
    (db : option Orchestrator.SessionRef) : Orchestrator.M Orchestrator.Response :=
  if String.eqb agent_type "weather"
  then Orchestrator.lift (Orchestrator._handle_weather self message)
  else if String.eqb agent_type "document"
  then Orchestrator.lift (Orchestrator._handle_document self message)
  else if String.eqb agent_type "scheduling"
  then Orchestrator._handle_scheduling self message db
  else if String.eqb agent_type "database"
  then Orchestrator._handle_database self message db
  else Orchestrator.lift (Orchestrator._handle_general self message).

(** What the body of the [try] of [process] comes to when the log write is
    left out: the routed handler's response with the metadata, or the first
    exception of the agent's methods. *)
Definition outcome `{PyLib} (self : Orchestrator.OrchestratorAgent) (now : datetime)
    (message : string) (conversation_id : option string)
    (db : option Orchestrator.SessionRef) (s : Session)
  : result Orchestrator.Response :=
  let! agent_type := Orchestrator._determine_agent self message in
  let! handled := fst (routed self agent_type message db s) in
  Return (Orchestrator.dict_update handled
            [ ("agent_used", PyStr agent_type);
              ("conversation_id", Orchestrator.opt_str conversation_id);
              ("timestamp", PyStr (isoformat now));
              ("original_message", PyStr message) ]).

(** An orchestrator that understands no message and says so. *)
Definition puzzled : Orchestrator.OrchestratorAgent :=
  {| Orchestrator._determine_agent := fun _ => Return "unknown";
     Orchestrator._handle_weather := fun _ => Return ∅;
     Orchestrator._handle_document := fun _ => Return ∅;
     Orchestrator._handle_scheduling := fun _ _ => Orchestrator.ret ∅;
     Orchestrator._handle_database := fun _ _ => Orchestrator.ret ∅;
     Orchestrator._handle_general := fun _ =>
       Return (<["confidence" := PyInt 0]>
                 (<["response" := PyStr "I could not understand that."]> ∅)) |}.

(** A database on which every commit fails. *)
Definition locked : Session -> option exn :=
  fun _ => Some (Exn "OperationalError" "database is locked").

(** A database on which every commit goes through. *)
Definition no_fault : Session -> option exn := fun _ => None.

(** [a] is scheduled no later than [b]. *)
Definition no_later (a b : Meeting) : Prop :=
  datetime_leb (scheduled_date a) (scheduled_date b) = true.

(** The meetings of one calendar day. *)
Definition on_day (d : date) (m : Meeting) : bool :=
  dt_date (scheduled_date m) =? d.

(** Every meeting of the store holds a time of day. *)
Definition valid_times (db : Session) : Prop :=
  forall m, In m (meetings db) -> valid_time (dt_time (scheduled_date m)).

(** The location filter of the tool's get_meetings. *)
Definition at_location (location : option string) (rows : list Meeting) : list Meeting :=
  if truthy location
  then List.filter (DatabaseTool.location_condition (default "" location)) rows
  else rows.




(** The four keys [process] writes into a response. *)
Definition metadata_keys : list string :=
  ["agent_used"; "conversation_id"; "timestamp"; "original_message"].

(** The row [process] adds to the conversation log. *)
Definition log_entry (conversation_id : option string) (message agent_type : string)
    (handled : Orchestrator.Response) : Conversation :=
  {| Store.conversation_id := conversation_id;
     Store.user_message := message;
     Store.agent_response := Orchestrator.dict_get handled "response" (PyStr "");
     Store.agent_type := agent_type;
     Store.confidence := Orchestrator.dict_get handled "confidence" (PyInt 0) |}.

(** The row [schedule_meeting] commits. *)
Definition scheduled_row `{PyDynamic} (utcnow : datetime) (db : Session)
    (location meeting_title : string) (scheduled : datetime)
    (participants : option (list string))
    (weather_data : SchedulingAgent.WeatherData) : Meeting :=
  {| Store.id := SchedulingAgent.next_id (meetings db);
     Store.title := meeting_title;
     Store.location := location;
     Store.scheduled_date := scheduled;
     Store.participants := default [] participants;
     Store.weather_conditions := PyJson (json_dumps weather_data);
     Store.weather_decision := None;
     Store.status := Some "scheduled";
     Store.created_at := Some utcnow |}.

(** The store with one more meeting. *)
Definition with_meeting (db : Session) (m : Meeting) : Session :=
  {| meetings := meetings db ++ [m];
     conversations := conversations db;
     pending := pending db |}.

(** What makes two meetings the same for [_check_existing_meeting]: title,
    location and scheduled date. *)
Definition slot (m : Meeting) : string * string * datetime :=
  (title m, location m, scheduled_date m).

(** The six reasons [_get_weather_reason] gives. *)
Definition weather_reasons : list string :=
  ["High probability of rain"; "Stormy conditions expected"; "Snowfall expected";
   "High wind speeds"; "High precipitation probability";
   "Unfavorable weather conditions"].

(** A weather agent for which every day is fine. *)
Definition fair_weather : SchedulingAgent.WeatherAgent :=
  {| SchedulingAgent.get_weather := fun location date =>
       Return (<["main" := PyStr "Clear"]> (<["location" := PyStr location]> ∅));
     SchedulingAgent.is_good_weather := fun _ => Return true |}.

(** An interpreter for the values the samples hold: the JSON text is not
    looked at. *)
Definition sample_dynamic : PyDynamic :=
  {| py_repr := fun _ => "None";
     json_dumps := fun _ => "{}";
     json_gt := fun _ _ => Return false;
     json_type := fun _ => "float" |}.

(** A database on which every commit of a meeting goes through. *)
Definition accepts : Session -> Meeting -> option exn := fun _ _ => None.

End Spec.

(* ===================================================================== *)
(** * The date-filter resolver and the category extraction *)
(* ===================================================================== *)

Section Resolver.

Import DatabaseAgent Spec.

Lemma date_add_in_range (d n : Z) :
  0 < d + n <= MAXORDINAL -> date_add d n = Return (d + n).
Proof.
  intros [Hlo Hhi]. unfold date_add.
  apply Z.ltb_lt in Hlo. apply Z.leb_le in Hhi.
  cbv zeta. rewrite Hlo, Hhi. reflexivity.
Qed.

Lemma date_add_tomorrow (now : datetime) :
  has_tomorrow now -> date_add (dt_date now) 1 = Return (dt_date now + 1).
Proof.
  intros [Hlo Hhi]. apply date_add_in_range. lia.
Qed.

(** C6. A text with a tomorrow marker and no today marker resolves to kind
    tomorrow: start is midnight of the day after [now], end is the last
    instant of that day. The markers are the alternatives of the agent's own
    patterns, found anywhere in the text; a yesterday marker in the text
    changes nothing, so none is excluded here. *)
Theorem extract_date_filter_tomorrow (now : datetime) (query : string) :
  Re.search (pattern "tomorrow") query = true ->
  Re.search (pattern "today") query = false ->
  has_tomorrow now ->
  _extract_date_filter now query
  = Return {| df_type := Some "tomorrow";
              df_date := Some (dt_date now + 1);
              df_start_date := Some (Datetime (dt_date now + 1) time_min);
              df_end_date := Some (Datetime (dt_date now + 1) time_max) |}.
Proof.
  intros Htomorrow Htoday Hclock.
  unfold _extract_date_filter.
  rewrite Htoday, Htomorrow, (date_add_tomorrow now Hclock).
  reflexivity.
Qed.

Lemma extract_date_filter_tomorrow_witness :
  _extract_date_filter (Datetime 738886 (Time 34200000000)) "show team meetings tomorrow"
  = Return {| df_type := Some "tomorrow";
              df_date := Some 738887;
              df_start_date := Some (Datetime 738887 time_min);
              df_end_date := Some (Datetime 738887 time_max) |}.
Proof.
  apply (extract_date_filter_tomorrow
           (Datetime 738886 (Time 34200000000)) "show team meetings tomorrow").
  - reflexivity.
  - reflexivity.
  - unfold has_tomorrow, MAXORDINAL. simpl. lia.
Defined.

(** C3, as stated, fails: the resolver has no yesterday rule, and a text
    with a yesterday marker and no today or tomorrow marker resolves to kind
    all. *)
Lemma extract_date_filter_yesterday_counterexample :
  Re.search Spec.yesterday_markers "meetings yesterday" = true
  /\ Re.search (pattern "today") "meetings yesterday" = false
  /\ Re.search (pattern "tomorrow") "meetings yesterday" = false
  /\ _extract_date_filter (Datetime 738886 (Time 34200000000)) "meetings yesterday"
     = Return all_filter
  /\ df_type all_filter <> Some "yesterday".
Proof.
  repeat split; try reflexivity. discriminate.
Qed.

(** C3, amended. The rules are tested in the order today, tomorrow, week,
    else all, and the first that matches wins. There is no yesterday rule: a
    text with a yesterday marker and no today or tomorrow marker resolves to
    kind week when it has a week marker and to kind all, without bounds,
    otherwise. *)
Theorem extract_date_filter_order (now : datetime) (query : string) :
  has_next_week now ->
  let today := Re.search (pattern "today") query in
  let tomorrow := Re.search (pattern "tomorrow") query in
  let week := Re.search (pattern "week") query in
  let resolved := _extract_date_filter now query in
  (today = true -> resolved = Return (today_filter now))
  /\ (today = false -> tomorrow = true -> resolved = Return (tomorrow_filter now))
  /\ (today = false -> tomorrow = false -> week = true ->
      resolved = Return (week_filter now))
  /\ (today = false -> tomorrow = false -> week = false ->
      resolved = Return all_filter)
  /\ (Re.search Spec.yesterday_markers query = true ->
      today = false -> tomorrow = false ->
      resolved = Return (if week then week_filter now else all_filter)).
Proof.
  intros [Hlo Hhi] today tomorrow week resolved.
  assert (H1 : date_add (dt_date now) 1 = Return (dt_date now + 1))
    by (apply date_add_in_range; lia).
  assert (H7 : date_add (dt_date now) 7 = Return (dt_date now + 7))
    by (apply date_add_in_range; lia).
  subst resolved. unfold _extract_date_filter.
  fold today tomorrow week. rewrite H1, H7.
  destruct today, tomorrow, week; repeat split; intros; try discriminate; reflexivity.
Qed.

Lemma extract_date_filter_order_witness :
  _extract_date_filter (Datetime 738886 (Time 34200000000)) "meetings yesterday"
  = Return all_filter.
Proof.
  pose proof (extract_date_filter_order
                (Datetime 738886 (Time 34200000000)) "meetings yesterday") as H.
  assert (Hclock : has_next_week (Datetime 738886 (Time 34200000000)))
    by (unfold has_next_week, MAXORDINAL; simpl; lia).
  destruct (H Hclock) as (_ & _ & _ & _ & Hy).
  apply Hy; reflexivity.
Defined.

(** C5, as stated, fails: the extraction has no client rule, and a text with
    a client keyword and no review or team keyword gets the category any. *)
Lemma extract_meeting_type_client_counterexample :
  Re.search Spec.client_keywords "client meetings" = true
  /\ Re.search (pattern "review") "client meetings" = false
  /\ Re.search (pattern "team") "client meetings" = false
  /\ _extract_meeting_type "client meetings" = "any"
  /\ _extract_meeting_type "client meetings" <> "client".
Proof.
  repeat split; try reflexivity. discriminate.
Qed.

(** C5, amended. The category is found by testing the review and the team
    keyword sets in that order, the first match wins and the default is any.
    There is no client rule: a text with a client keyword and no review or
    team keyword gets the category any. *)
Theorem extract_meeting_type_order (query : string) :
  let review := Re.search (pattern "review") query in
  let team := Re.search (pattern "team") query in
  (review = true -> _extract_meeting_type query = "review")
  /\ (review = false -> team = true -> _extract_meeting_type query = "team")
  /\ (review = false -> team = false -> _extract_meeting_type query = "any")
  /\ (Re.search Spec.client_keywords query = true ->
      review = false -> team = false -> _extract_meeting_type query = "any").
Proof.
  intros review team. unfold _extract_meeting_type. fold review team.
  destruct review, team; repeat split; intros; try discriminate; reflexivity.
Qed.

End Resolver.

(* ===================================================================== *)
(** * LIKE patterns of the form [%literal%] *)
(* ===================================================================== *)

Module SqlFacts.

Import Sql.

Lemma append_nil (a : string) : "" ++ a = a.
Proof. reflexivity. Qed.

Lemma append_cons (x : ascii) (a b : string) : String x a ++ b = String x (a ++ b).
Proof. reflexivity. Qed.

Ltac push_append := rewrite ?append_cons, ?append_nil in *.










End SqlFacts.

(* ===================================================================== *)
(** * The meeting queries *)
(* ===================================================================== *)

Section Queries.

Context `{PyLib}.


Lemma filter_all {A} (p : A -> bool) (l : list A) :
  (forall x, p x = true) -> List.filter p l = l.
Proof.
  intros Hp. induction l as [|x l IH]; simpl; [reflexivity|].
  now rewrite Hp, IH.
Qed.

Lemma firstn_incl {A} (n : nat) (l : list A) (x : A) :
  In x (firstn n l) -> In x l.
Proof.
  revert l. induction n as [|n IH]; intros [|y l]; simpl; try tauto.
  intros [-> | Hx]; auto.
Qed.

Lemma insert_by_date_permutation (m : Meeting) (l : list Meeting) :
  Permutation (insert_by_date m l) (m :: l).
Proof.
  induction l as [|x l IH]; simpl; [reflexivity|].
  destruct (datetime_leb (scheduled_date m) (scheduled_date x)); [reflexivity|].
  rewrite IH. apply perm_swap.
Qed.

Lemma order_by_permutation (l : list Meeting) :
  Permutation (order_by_scheduled_date l) l.
Proof.
  unfold order_by_scheduled_date.
  induction l as [|x l IH]; simpl; [reflexivity|].
  now rewrite insert_by_date_permutation, IH.
Qed.

(** On a date filter that [_extract_date_filter] built, the query never
    misses a key: it keeps the records within the date range and of the
    category, up to the limit, and raises what the category condition
    raises. *)
Lemma get_meetings_query_extracted (now : datetime) (query : string)
    (df : DatabaseAgent.DateFilter) (category : option string) (n : option nat)
    (db : Session) :
  DatabaseAgent._extract_date_filter now query = Return df ->
  DatabaseAgent._get_meetings_query
    {| DatabaseAgent.date_filter := Some df;
       DatabaseAgent.meeting_type := category;
       DatabaseAgent.limit := n |} db
  = let rows := List.filter (Spec.within df) (meetings db) in
    let! rows :=
      if DatabaseAgent.is_type category "review"
      then Return (List.filter DatabaseAgent.review_condition rows)
      else if DatabaseAgent.is_type category "team"
      then let! condition := DatabaseAgent.team_condition in
           Return (List.filter condition rows)
      else Return rows in
    Return (map DatabaseAgent.row_of (limit_rows (default 10%nat n) rows)).
Proof.
  unfold DatabaseAgent._extract_date_filter. intros Hdf.
  destruct (Re.search (DatabaseAgent.pattern "today") query).
  { injection Hdf as <-. reflexivity. }
  destruct (Re.search (DatabaseAgent.pattern "tomorrow") query).
  { destruct (date_add (dt_date now) 1); [|discriminate].
    injection Hdf as <-. reflexivity. }
  destruct (Re.search (DatabaseAgent.pattern "week") query).
  { destruct (date_add (dt_date now) 7); [|discriminate].
    injection Hdf as <-. reflexivity. }
  injection Hdf as <-.
  unfold DatabaseAgent._get_meetings_query. simpl.
  rewrite (filter_all (Spec.within _)) by reflexivity. reflexivity.
Qed.

(** With the category team the query of the agent returns no rows, whatever
    the store holds: building the condition raises. *)
Lemma get_meetings_query_team (now : datetime) (query : string)
    (df : DatabaseAgent.DateFilter) (n : option nat) (db : Session) :
  DatabaseAgent._extract_date_filter now query = Return df ->
  DatabaseAgent._get_meetings_query
    {| DatabaseAgent.date_filter := Some df;
       DatabaseAgent.meeting_type := Some "team";
       DatabaseAgent.limit := n |} db
  = Raise (Exn "AttributeError" column_has_no_any).
Proof.
  intros Hdf.
  rewrite (get_meetings_query_extracted now query df _ _ db Hdf). reflexivity.
Qed.



(** On a clock with a week ahead of it the resolver returns. *)
Lemma extract_date_filter_returns (now : datetime) (query : string) :
  has_next_week now ->
  exists df, DatabaseAgent._extract_date_filter now query = Return df.
Proof.
  intros [Hlo Hhi]. unfold DatabaseAgent._extract_date_filter.
  rewrite !date_add_in_range by lia.
  destruct (Re.search _ query); [eauto|].
  destruct (Re.search _ query); [simpl; eauto|].
  destruct (Re.search _ query); simpl; eauto.
Qed.


End Queries.


Section Counting.

Context `{PyLib}.

(** C1. The count operation returns the length of the meetings sequence the
    get operation returns on the same parameters and store, in the tool and
    in the agent: count is read off one call of get. Where the agent's get
    raises (a date filter that lacks a bound it names), count raises the
    same exception. *)
Theorem count_is_length_of_get (params : DatabaseTool.Params)
    (agent_params : DatabaseAgent.Params) (db : Session) :
  DatabaseTool.cr_count (DatabaseTool._execute_count_meetings params db)
  = length (DatabaseTool.meetings (DatabaseTool._execute_get_meetings params db))
  /\ DatabaseTool.cr_count (DatabaseTool._execute_count_meetings params db)
     = DatabaseTool.count (DatabaseTool._execute_get_meetings params db)
  /\ match DatabaseAgent._get_meetings_query agent_params db with
     | Return rows =>
         exists c, DatabaseAgent._count_meetings_query agent_params db = Return c
                   /\ DatabaseAgent.count c = length rows
     | Raise e => DatabaseAgent._count_meetings_query agent_params db = Raise e
     end.
Proof.
  split; [|split].
  - unfold DatabaseTool._execute_count_meetings, DatabaseTool._execute_get_meetings.
    cbn [DatabaseTool.cr_count DatabaseTool.count DatabaseTool.meetings].
    now rewrite length_map.
  - reflexivity.
  - unfold DatabaseAgent._count_meetings_query.
    destruct (DatabaseAgent._get_meetings_query agent_params db) as [rows|e]; simpl.
    + eexists. split; reflexivity.
    + reflexivity.
Qed.

(** The fallback of [_parse_date]: a string that is no keyword and does not
    parse gives midnight of the day after [now]. *)
Lemma parse_date_default (now : datetime) (date_str : string) :
  date_str <> "today" -> date_str <> "tomorrow" -> date_str <> "yesterday" ->
  (exists e, strptime_ymd date_str = Raise e) ->
  has_tomorrow now ->
  SchedulingAgent._parse_date now date_str = Return (combine (dt_date now + 1) time_min).
Proof.
  intros H1 H2 H3 [e He] Hclock.
  apply String.eqb_neq in H1, H2, H3.
  unfold SchedulingAgent._parse_date.
  rewrite H1, H2, H3, He. simpl.
  rewrite (date_add_tomorrow now Hclock). reflexivity.
Qed.

(** C7. A date string that is none of today, tomorrow, yesterday and that
    [strptime] rejects does not make [_parse_date] raise: the result is
    tomorrow's date, midnight of the day after [now]. *)
Theorem parse_date_fallback (now : datetime) (date_str : string) :
  date_str <> "today" -> date_str <> "tomorrow" -> date_str <> "yesterday" ->
  (exists e, strptime_ymd date_str = Raise e) ->
  has_tomorrow now ->
  SchedulingAgent._parse_date now date_str = Return (Datetime (dt_date now + 1) time_min).
Proof.
  apply parse_date_default.
Qed.

(** C10. The direct get_meetings operation drops a date it cannot parse: the
    answer is the one for no date at all, every record of the store that
    passes the location filter, whatever its day; the agent's get_meetings
    returns the whole store; the scheduling path turns the same string into
    tomorrow. *)
Theorem get_meetings_drops_unparseable_date (now : datetime) (db : Session)
    (date : string) (location : option string) :
  date <> "today" -> date <> "tomorrow" -> date <> "yesterday" ->
  (exists e, strptime_ymd date = Raise e) ->
  has_tomorrow now ->
  let kept :=
    if truthy location
    then List.filter (DatabaseTool.location_condition (default "" location)) (meetings db)
    else meetings db in
  DatabaseTool.get_meetings now db (Some date) location
  = map to_dict (order_by_scheduled_date kept)
  /\ DatabaseTool.get_meetings now db (Some date) location
     = DatabaseTool.get_meetings now db None location
  /\ (forall m, In m kept ->
        In (to_dict m) (DatabaseTool.get_meetings now db (Some date) location))
  /\ DatabaseAgent.get_meetings now db (Some date) = map DatabaseAgent.row_of (meetings db)
  /\ SchedulingAgent._parse_date now date = Return (Datetime (dt_date now + 1) time_min).
Proof.
  intros H1 H2 H3 Hparse Hclock kept.
  assert (Htool : DatabaseTool.get_meetings now db (Some date) location
                  = map to_dict (order_by_scheduled_date kept)).
  { destruct Hparse as [e He]. apply String.eqb_neq in H1, H2, H3.
    unfold DatabaseTool.get_meetings. cbn [truthy default from_option Datatypes.id].
    rewrite H1, H2, H3, He. simpl Py.bind.
    destruct (negb (date =? "")%string); reflexivity. }
  split; [exact Htool|]. split; [rewrite Htool; reflexivity|].
  split.
  { intros m Hm. rewrite Htool. apply in_map.
    apply (Permutation_in m (Permutation_sym (order_by_permutation kept)) Hm). }
  split.
  { destruct Hparse as [e He]. apply String.eqb_neq in H1, H2.
    unfold DatabaseAgent.get_meetings. cbn [truthy default from_option Datatypes.id].
    rewrite H1, H2, He. simpl Py.bind.
    destruct (negb (date =? "")%string); reflexivity. }
  now apply parse_date_default.
Qed.

End Counting.

Lemma parse_date_fallback_witness :
  @SchedulingAgent._parse_date AsciiLib.ascii_lib Spec.sample_now "2024-13-45"
  = Return (Datetime 738887 time_min).
Proof.
  apply (@parse_date_fallback AsciiLib.ascii_lib Spec.sample_now "2024-13-45").
  - discriminate.
  - discriminate.
  - discriminate.
  - eexists. reflexivity.
  - unfold has_tomorrow, MAXORDINAL. simpl. lia.
Defined.

Lemma get_meetings_drops_unparseable_date_witness :
  @DatabaseTool.get_meetings AsciiLib.ascii_lib Spec.sample_now
    (Spec.sample_store [Spec.sample_meeting 1 "Team sync" 738900 ["ann"];
                        Spec.sample_meeting 2 "Review" 738886 []])
    (Some "2024-13-45") None
  = @DatabaseTool.get_meetings AsciiLib.ascii_lib Spec.sample_now
      (Spec.sample_store [Spec.sample_meeting 1 "Team sync" 738900 ["ann"];
                          Spec.sample_meeting 2 "Review" 738886 []])
      None None.
Proof.
  apply (@get_meetings_drops_unparseable_date AsciiLib.ascii_lib Spec.sample_now
           (Spec.sample_store [Spec.sample_meeting 1 "Team sync" 738900 ["ann"];
                               Spec.sample_meeting 2 "Review" 738886 []])
           "2024-13-45" None).
  - discriminate.
  - discriminate.
  - discriminate.
  - eexists. reflexivity.
  - unfold has_tomorrow, MAXORDINAL. simpl. lia.
Defined.

(* ===================================================================== *)
(** * The orchestrator *)
(* ===================================================================== *)

Section Router.

Import Orchestrator Spec.

Context `{PyLib}.
Variable commit_fault : Session -> option exn.
Variable self : OrchestratorAgent.
Variable now : datetime.

(** Saving the conversation returns, whatever the commit does. *)
Lemma save_conversation_returns (db : SessionRef) (conversation_id : option string)
    (user_message : string) (agent_response : pyval) (agent_type : string)
    (confidence : pyval) (s : Session) :
  fst (_save_conversation commit_fault db conversation_id user_message
         agent_response agent_type confidence s) = Return tt.
Proof.
  unfold _save_conversation, try_exceptM, bindM, session_add, session_commit.
  destruct (commit_fault _); reflexivity.
Qed.

Lemma error_response_fields (e : exn) :
  error_response e !! "agent" = Some (PyStr "error")
  /\ error_response e !! "confidence" = Some (PyInt 0)
  /\ error_response e !! "response"
     = Some (PyStr ("Sorry, I encountered an error: " ++ exn_str e))
  /\ error_response e !! "suggestion" = Some (PyStr "Please try rephrasing your question.")
  /\ error_response e !! "agent_used" = None
  /\ error_response e !! "timestamp" = None
  /\ error_response e !! "original_message" = None.
Proof.
  unfold error_response, dict_update. simpl.
  repeat split; simplify_map_eq; reflexivity.
Qed.

Lemma metadata_fields (response : Response) (agent_type message : string)
    (conversation_id : option string) :
  let envelope :=
    dict_update response
      [ ("agent_used", PyStr agent_type);
        ("conversation_id", opt_str conversation_id);
        ("timestamp", PyStr (isoformat now));
        ("original_message", PyStr message) ] in
  envelope !! "agent_used" = Some (PyStr agent_type)
  /\ envelope !! "conversation_id" = Some (opt_str conversation_id)
  /\ envelope !! "timestamp" = Some (PyStr (isoformat now))
  /\ envelope !! "original_message" = Some (PyStr message).
Proof.
  unfold dict_update. simpl.
  repeat split; simplify_map_eq; reflexivity.
Qed.

(** [process] wraps the body of its [try]: a result is passed on, an
    exception becomes the error dictionary. *)
Lemma process_unfold (message : string) (conversation_id : option string)
    (db : option SessionRef) (s : Session) :
  process commit_fault self now message conversation_id db s
  = match process_try commit_fault self now message conversation_id db s with
    | (Return response, s1) => (Return response, s1)
    | (Raise e, s1) => (Return (error_response e), s1)
    end.
Proof.
  unfold process, try_exceptM, ret.
  destruct (process_try _ _ _ _ _ _ _) as [[r|e] s1]; reflexivity.
Qed.

(** When the body of the [try] returns, the agent was determined, its
    handler returned, and the result is the handler's response with the
    metadata written over it. *)
Lemma process_try_returns (message : string) (conversation_id : option string)
    (db : option SessionRef) (s s1 : Session) (response : Response) :
  process_try commit_fault self now message conversation_id db s = (Return response, s1) ->
  exists agent_type handled s0,
    _determine_agent self message = Return agent_type
    /\ routed self agent_type message db s = (Return handled, s0)
    /\ response = dict_update handled
                    [ ("agent_used", PyStr agent_type);
                      ("conversation_id", opt_str conversation_id);
                      ("timestamp", PyStr (isoformat now));
                      ("original_message", PyStr message) ].
Proof.
  unfold process_try.
  unfold bindM at 1, lift at 1.
  destruct (_determine_agent self message) as [agent_type|e]; [|discriminate].
  change (if (agent_type =? "weather")%string then _ else _)
    with (routed self agent_type message db).
  unfold bindM at 1.
  destruct (routed self agent_type message db s) as [[handled|e] s0] eqn:Hrouted;
    [|discriminate].
  unfold bindM, ret. intros Hsave.
  exists agent_type, handled, s0. split; [reflexivity|]. split; [assumption|].
  destruct db as [ref|].
  - pose proof (save_conversation_returns ref conversation_id message
                  (dict_get handled "response" (PyStr "")) agent_type
                  (dict_get handled "confidence" (PyInt 0)) s0) as Hret.
    destruct (_save_conversation _ _ _ _ _ _ _ s0) as [saved s2].
    simpl in Hret. subst saved. now injection Hsave as <- _.
  - now injection Hsave as <- _.
Qed.

(** When the agent is determined and its handler returns, so does the body
    of the [try]. *)
Lemma process_try_completes (message : string) (conversation_id : option string)
    (db : option SessionRef) (s s0 : Session) (agent_type : string)
    (handled : Response) :
  _determine_agent self message = Return agent_type ->
  routed self agent_type message db s = (Return handled, s0) ->
  exists s1,
    process_try commit_fault self now message conversation_id db s
    = (Return (dict_update handled
                 [ ("agent_used", PyStr agent_type);
                   ("conversation_id", opt_str conversation_id);
                   ("timestamp", PyStr (isoformat now));
                   ("original_message", PyStr message) ]), s1).
Proof.
  intros Hagent Hrouted. unfold process_try.
  unfold bindM at 1, lift at 1. rewrite Hagent.
  change (if (agent_type =? "weather")%string then _ else _)
    with (routed self agent_type message db).
  unfold bindM at 1. rewrite Hrouted.
  unfold bindM, ret.
  destruct db as [ref|].
  - pose proof (save_conversation_returns ref conversation_id message
                  (dict_get handled "response" (PyStr "")) agent_type
                  (dict_get handled "confidence" (PyInt 0)) s0) as Hret.
    destruct (_save_conversation _ _ _ _ _ _ _ s0) as [saved s2].
    simpl in Hret. subst saved. eauto.
  - eauto.
Qed.

(** The outcome of the body of the [try] does not depend on the log write. *)
Lemma process_try_outcome (message : string) (conversation_id : option string)
    (db : option SessionRef) (s : Session) :
  fst (process_try commit_fault self now message conversation_id db s)
  = outcome self now message conversation_id db s.
Proof.
  unfold outcome.
  destruct (process_try _ _ _ _ _ _ _) as [[response|e] s1] eqn:Htry.
  - apply process_try_returns in Htry as (agent_type & handled & s0 & Ha & Hr & ->).
    rewrite Ha. simpl Py.bind. rewrite Hr. reflexivity.
  - revert Htry. unfold process_try.
    unfold bindM at 1, lift at 1.
    destruct (_determine_agent self message) as [agent_type|e0]; simpl Py.bind.
    + change (if (agent_type =? "weather")%string then _ else _)
        with (routed self agent_type message db).
      unfold bindM at 1.
      destruct (routed self agent_type message db s) as [[handled|e1] s0].
      * intros Htry. exfalso.
        destruct db as [ref|]; unfold bindM, ret in Htry.
        -- pose proof (save_conversation_returns ref conversation_id message
                         (dict_get handled "response" (PyStr "")) agent_type
                         (dict_get handled "confidence" (PyInt 0)) s0) as Hret.
           destruct (_save_conversation _ _ _ _ _ _ _ s0) as [saved s2].
           simpl in Hret. subst saved. discriminate.
        -- discriminate.
      * now intros [= <- _].
    + now intros [= <- _].
Qed.

Lemma process_outcome (message : string) (conversation_id : option string)
    (db : option SessionRef) (s : Session) :
  fst (process commit_fault self now message conversation_id db s)
  = match outcome self now message conversation_id db s with
    | Return response => Return response
    | Raise e => Return (error_response e)
    end.
Proof.
  rewrite process_unfold, <- process_try_outcome.
  destruct (process_try _ _ _ _ _ _ _) as [[response|e] s1]; reflexivity.
Qed.

(** C2. [process] never raises: it returns a response for every message,
    conversation id and store handle, whatever the methods it calls do and
    whether or not the commit of the log entry fails; when the body of its
    [try] fails with an exception, the response is the error dictionary for
    that exception, whose agent field is error and whose confidence is 0. *)
Theorem process_never_raises (message : string) (conversation_id : option string)
    (db : option SessionRef) (s : Session) :
  exists envelope s',
    process commit_fault self now message conversation_id db s = (Return envelope, s')
    /\ (forall e s1,
          process_try commit_fault self now message conversation_id db s = (Raise e, s1) ->
          envelope = error_response e
          /\ envelope !! "agent" = Some (PyStr "error")
          /\ envelope !! "confidence" = Some (PyInt 0)
          /\ envelope !! "response"
             = Some (PyStr ("Sorry, I encountered an error: " ++ exn_str e))).
Proof.
  rewrite process_unfold.
  destruct (process_try _ _ _ _ _ _ _) as [[response|e] s1].
  - exists response, s1. split; [reflexivity|]. intros e s2 Hraise. discriminate.
  - exists (error_response e), s1. split; [reflexivity|].
    intros e' s2 Hraise. injection Hraise as <- _.
    destruct (error_response_fields e) as (Ha & Hc & Hr & _). auto.
Qed.

(** C8, amended. Every branch of [process] that completes without an
    internal error, the unknown-intent branch among them, returns the
    handler's response with the agent used, the conversation id, a timestamp
    and the original message written into it. The internal-error branch
    returns the error dictionary: agent, response, confidence and suggestion,
    without agent used, timestamp or original message. *)
Theorem process_envelope (message : string) (conversation_id : option string)
    (db : option SessionRef) (s : Session) :
  match process_try commit_fault self now message conversation_id db s with
  | (Return response, s1) =>
      process commit_fault self now message conversation_id db s = (Return response, s1)
      /\ (exists agent_type,
            _determine_agent self message = Return agent_type
            /\ response !! "agent_used" = Some (PyStr agent_type))
      /\ response !! "conversation_id" = Some (opt_str conversation_id)
      /\ response !! "timestamp" = Some (PyStr (isoformat now))
      /\ response !! "original_message" = Some (PyStr message)
  | (Raise e, s1) =>
      process commit_fault self now message conversation_id db s
      = (Return (error_response e), s1)
      /\ error_response e !! "agent" = Some (PyStr "error")
      /\ error_response e !! "agent_used" = None
      /\ error_response e !! "timestamp" = None
      /\ error_response e !! "original_message" = None
  end
  /\ (forall agent_type handled,
        _determine_agent self message = Return agent_type ->
        agent_type <> "weather" -> agent_type <> "document" ->
        agent_type <> "scheduling" -> agent_type <> "database" ->
        _handle_general self message = Return handled ->
        exists envelope s1,
          process commit_fault self now message conversation_id db s
          = (Return envelope, s1)
          /\ envelope !! "agent_used" = Some (PyStr agent_type)
          /\ envelope !! "timestamp" = Some (PyStr (isoformat now))
          /\ envelope !! "original_message" = Some (PyStr message)).
Proof.
  split.
  - rewrite process_unfold.
    destruct (process_try _ _ _ _ _ _ _) as [[response|e] s1] eqn:Htry.
    + split; [reflexivity|].
      apply process_try_returns in Htry as (agent_type & handled & s0 & Hagent & _ & ->).
      destruct (metadata_fields handled agent_type message conversation_id)
        as (Hu & Hc & Ht & Hm).
      split; [exists agent_type; auto|]. auto.
    + split; [reflexivity|].
      destruct (error_response_fields e) as (Ha & _ & _ & _ & Hu & Ht & Hm). auto.
  - intros agent_type handled Hagent H1 H2 H3 H4 Hgeneral.
    apply String.eqb_neq in H1, H2, H3, H4.
    assert (Hrouted : routed self agent_type message db s = (Return handled, s)).
    { unfold routed, lift. now rewrite H1, H2, H3, H4, Hgeneral. }
    destruct (process_try_completes message conversation_id db s s agent_type handled
                Hagent Hrouted) as [s1 Htry].
    rewrite process_unfold, Htry.
    destruct (metadata_fields handled agent_type message conversation_id)
      as (Hu & _ & Ht & Hm).
    eauto 6.
Qed.

End Router.

(** C8, as stated, fails on the internal-error branch: the response has no
    agent used, no timestamp and no original message. *)
Lemma process_error_branch_counterexample :
  exists envelope s',
    @Orchestrator.process AsciiLib.ascii_lib Spec.no_fault Spec.failing_weather
      Spec.sample_now "weather in London" (Some "c1") (Some Orchestrator.the_session)
      (Spec.sample_store [])
    = (Return envelope, s')
    /\ envelope !! "agent_used" = None
    /\ envelope !! "timestamp" = None
    /\ envelope !! "original_message" = None.
Proof.
  eexists. eexists. split; [reflexivity|].
  destruct (@error_response_fields (Exn "ConnectionError" "weather service unavailable"))
    as (_ & _ & _ & _ & Hu & Ht & Hm).
  auto.
Qed.

(** C9. A failure of the conversation-log write does not reach the caller:
    for every message, conversation id, store handle and store state, and
    whatever the methods [process] calls do, [process] returns the same
    response when the commit fails as when it goes through, and it returns
    one in both cases. *)
Theorem log_write_failure_is_silent `{PyLib}
    (fault other_fault : Session -> option exn)
    (self : Orchestrator.OrchestratorAgent) (now : datetime) (message : string)
    (conversation_id : option string) (db : option Orchestrator.SessionRef)
    (s : Session) :
  fst (Orchestrator.process fault self now message conversation_id db s)
  = fst (Orchestrator.process other_fault self now message conversation_id db s)
  /\ exists envelope,
       fst (Orchestrator.process fault self now message conversation_id db s)
       = Return envelope.
Proof.
  rewrite !process_outcome. split; [reflexivity|].
  destruct (Spec.outcome self now message conversation_id db s); eauto.
Qed.

Lemma process_envelope_witness :
  exists envelope s1,
    @Orchestrator.process AsciiLib.ascii_lib Spec.no_fault Spec.puzzled Spec.sample_now
      "asdf qwerty" None (Some Orchestrator.the_session) (Spec.sample_store [])
    = (Return envelope, s1)
    /\ envelope !! "agent_used" = Some (PyStr "unknown")
    /\ envelope !! "timestamp" = Some (PyStr "2024-01-01T09:30:00")
    /\ envelope !! "original_message" = Some (PyStr "asdf qwerty").
Proof.
  apply (proj2 (@process_envelope AsciiLib.ascii_lib Spec.no_fault Spec.puzzled
                  Spec.sample_now "asdf qwerty" None
                  (Some Orchestrator.the_session) (Spec.sample_store []))
           "unknown"
           (<["confidence" := PyInt 0]>
              (<["response" := PyStr "I could not understand that."]> ∅))).
  - reflexivity.
  - discriminate.
  - discriminate.
  - discriminate.
  - discriminate.
  - reflexivity.
Defined.

Lemma log_write_failure_is_silent_witness :
  fst (@Orchestrator.process AsciiLib.ascii_lib Spec.locked Spec.puzzled Spec.sample_now
         "asdf qwerty" (Some "c1") (Some Orchestrator.the_session) (Spec.sample_store []))
  = fst (@Orchestrator.process AsciiLib.ascii_lib Spec.no_fault Spec.puzzled
           Spec.sample_now "asdf qwerty" (Some "c1") (Some Orchestrator.the_session)
           (Spec.sample_store [])).
Proof.
  apply (@log_write_failure_is_silent AsciiLib.ascii_lib Spec.locked Spec.no_fault).
Defined.

(** The two runs differ in the store only: the exchange is recorded when the
    commit goes through and dropped when it fails. *)
Example log_entry_recorded_or_dropped :
  length (conversations
            (snd (@Orchestrator.process AsciiLib.ascii_lib Spec.no_fault Spec.puzzled
                    Spec.sample_now "asdf qwerty" (Some "c1")
                    (Some Orchestrator.the_session) (Spec.sample_store [])))) = 1%nat
  /\ snd (@Orchestrator.process AsciiLib.ascii_lib Spec.locked Spec.puzzled
            Spec.sample_now "asdf qwerty" (Some "c1")
            (Some Orchestrator.the_session) (Spec.sample_store []))
     = Spec.sample_store [].
Proof.
  split; reflexivity.
Qed.

(** The end-to-end example of the specification, one Team Review meeting
    tomorrow at noon and the category team. The executors of the tool get
    that record and count 1. In the agent "show team meetings tomorrow" and
    "how many team meetings tomorrow" are parsed as a get and a count of the
    category team, and neither reaches the store: the condition raises. *)
Example count_end_to_end :
  let m := Spec.sample_meeting 1 "Team Review" 738887 [] in
  let db := Spec.sample_store [m] in
  let tomorrow :=
    {| DatabaseTool.date_filter :=
         Some {| DatabaseTool.df_type := Some "tomorrow";
                 DatabaseTool.df_start := Some (combine 738887 time_min);
                 DatabaseTool.df_end := Some (combine 738887 time_max) |};
       DatabaseTool.meeting_type := Some "team";
       DatabaseTool.location := None;
       DatabaseTool.limit := Some 10%nat |} in
  DatabaseTool.meetings (@DatabaseTool._execute_get_meetings AsciiLib.ascii_lib tomorrow db)
  = [@to_dict AsciiLib.ascii_lib m]
  /\ DatabaseTool.cr_count
       (@DatabaseTool._execute_count_meetings AsciiLib.ascii_lib tomorrow db) = 1%nat
  /\ exists params count_params e,
       @DatabaseAgent._parse_query AsciiLib.ascii_lib Spec.sample_now
         "show team meetings tomorrow" = Return ("get_meetings", params)
       /\ @DatabaseAgent._get_meetings_query AsciiLib.ascii_lib params db = Raise e
       /\ @DatabaseAgent._parse_query AsciiLib.ascii_lib Spec.sample_now
            "how many team meetings tomorrow" = Return ("count_meetings", count_params)
       /\ @DatabaseAgent._count_meetings_query AsciiLib.ascii_lib count_params db = Raise e
       /\ exn_class e = "AttributeError".
Proof.
  split; [reflexivity|]. split; [reflexivity|].
  do 3 eexists. repeat split; reflexivity.
Qed.

(* ===================================================================== *)
(** * Searching a text: what the patterns find *)
(* ===================================================================== *)

Module ReFacts.

Import SqlFacts.

Lemma append_assoc (a b c : string) : (a ++ b) ++ c = a ++ b ++ c.
Proof.
  induction a as [|x a IH]; push_append; [reflexivity | now rewrite IH].
Qed.

Lemma prefix_iff (p t : string) :
  String.prefix p t = true <-> exists rest, t = p ++ rest.
Proof.
  revert t. induction p as [|a p IH]; intros t.
  - split; [intros _; exists t; reflexivity | intros _; destruct t; reflexivity].
  - destruct t as [|b t]; simpl.
    + split; [discriminate | intros [r Hr]; push_append; discriminate].
    + destruct (ascii_dec a b) as [<- | Hab].
      * rewrite IH. split; intros [r Hr]; exists r; push_append; congruence.
      * split; [discriminate | intros [r Hr]; push_append; congruence].
Qed.

Lemma contains_step (needle text : string) :
  Re.contains needle text
  = String.prefix needle text
    || match text with
       | EmptyString => false
       | String _ rest => Re.contains needle rest
       end.
Proof.
  destruct text; reflexivity.
Qed.

(** [Re.contains] is substring containment. *)
Lemma contains_iff (needle text : string) :
  Re.contains needle text = true
  <-> exists before after, text = before ++ needle ++ after.
Proof.
  induction text as [|c text IH]; rewrite contains_step, orb_true_iff, prefix_iff.
  - split.
    + intros [[r Hr] | Hf]; [|discriminate]. exists "", r. exact Hr.
    + intros (b & a & Hba). left. destruct b; push_append; [eauto | discriminate].
  - rewrite IH. split.
    + intros [[r Hr] | (b & a & ->)].
      * exists "", r. exact Hr.
      * exists (String c b), a. reflexivity.
    + intros (b & a & Hba). destruct b as [|x b]; push_append.
      * left. eauto.
      * right. injection Hba as _ ->. eauto.
Qed.

Lemma contains_embedded (needle text before after : string) :
  Re.contains needle text = true ->
  Re.contains needle (before ++ text ++ after) = true.
Proof.
  rewrite !contains_iff. intros (b & a & ->).
  exists (before ++ b), (a ++ after). now rewrite !append_assoc.
Qed.

Lemma contains_trans (a b text : string) :
  Re.contains a b = true -> Re.contains b text = true -> Re.contains a text = true.
Proof.
  intros Hab Hb. apply contains_iff in Hb as (before & after & ->).
  now apply contains_embedded.
Qed.

Lemma search_iff (pattern : Re.regex) (text : string) :
  Re.search pattern text = true
  <-> exists alt, In alt pattern /\ Re.contains alt text = true.
Proof.
  unfold Re.search. apply existsb_exists.
Qed.

(** A pattern that matches a text matches every text around it. *)
Lemma search_embedded (pattern : Re.regex) (text before after : string) :
  Re.search pattern text = true ->
  Re.search pattern (before ++ text ++ after) = true.
Proof.
  rewrite !search_iff. intros (alt & Hin & Hc).
  exists alt. split; [exact Hin | now apply contains_embedded].
Qed.

Lemma search_marker (pattern : Re.regex) (marker before after : string) :
  In marker pattern -> Re.search pattern (before ++ marker ++ after) = true.
Proof.
  intros Hin. apply search_iff. exists marker. split; [exact Hin|].
  apply contains_iff. eauto.
Qed.

End ReFacts.

Section Keywords.

Import DatabaseAgent Spec.

Context `{PyLib}.

(** X1. A text in which today, current day or now occurs anywhere, also
    inside a word such as know, resolves to kind today for today's range,
    whatever else it contains (a tomorrow or a week marker too) and whatever
    the clock reads. *)
Theorem today_marker_wins (now : datetime) (marker before after : string) :
  In marker ["today"; "current day"; "now"] ->
  _extract_date_filter now (before ++ marker ++ after) = Return (today_filter now).
Proof.
  intros Hin. unfold _extract_date_filter.
  rewrite (ReFacts.search_marker (pattern "today") marker before after Hin).
  reflexivity.
Qed.

(** X2. A question about how many meetings there are is never counted: its
    text contains any meeting, so the query type is get_meetings or
    check_meeting, whatever else the question says. *)
Theorem how_many_meetings_is_not_counted (now : datetime) (query : string) :
  Re.contains "many meeting" (str_lower query) = true ->
  has_next_week now ->
  exists query_type params,
    _parse_query now query = Return (query_type, params)
    /\ (query_type = "get_meetings" \/ query_type = "check_meeting").
Proof.
  intros Hmany [Hlo Hhi].
  assert (Hany : Re.search ["do we have"; "is there"; "any meeting"] (str_lower query)
                 = true).
  { apply ReFacts.search_iff. exists "any meeting". split; [simpl; auto|].
    apply (ReFacts.contains_trans _ "many meeting"); [reflexivity | exact Hmany]. }
  unfold _parse_query, _extract_date_filter. rewrite Hany.
  rewrite !date_add_in_range by lia.
  repeat match goal with
         | |- context [if Re.search ?p ?q then _ else _] => destruct (Re.search p q)
         end; simpl; eauto.
Qed.

End Keywords.

Lemma today_marker_wins_witness :
  DatabaseAgent._extract_date_filter Spec.sample_now
    "do you know about tomorrow"
  = Return (Spec.today_filter Spec.sample_now).
Proof.
  apply (today_marker_wins Spec.sample_now "now" "do you k" " about tomorrow").
  simpl. auto.
Defined.

Lemma how_many_meetings_is_not_counted_witness :
  exists query_type params,
    @DatabaseAgent._parse_query AsciiLib.ascii_lib Spec.sample_now
      "How many meetings tomorrow" = Return (query_type, params)
    /\ (query_type = "get_meetings" \/ query_type = "check_meeting").
Proof.
  apply (@how_many_meetings_is_not_counted AsciiLib.ascii_lib Spec.sample_now
           "How many meetings tomorrow").
  - reflexivity.
  - unfold has_next_week, MAXORDINAL. simpl. lia.
Defined.

(* ===================================================================== *)
(** * More on the meeting queries *)
(* ===================================================================== *)

Section QueryFacts.

Import Spec.

Context `{PyLib}.

Lemma count_message_differs (n : nat) :
  str_of_nat n ++ " meeting(s) found" <> "No meetings found".
Proof.
  unfold str_of_nat. destruct (Nat.to_uint n); simpl; discriminate.
Qed.

(** X3. Check, count and get agree on the same parameters and store. In
    the agent, check returns the rows of get, their number, and exists
    exactly when there is a row; count returns the same number; both raise
    when get raises. In the tool, check and count carry the count of get,
    exists holds exactly when get returned a meeting, and the message is
    No meetings found exactly when the count is 0. *)
Theorem check_count_get_agree (agent_params : DatabaseAgent.Params)
    (params : DatabaseTool.Params) (db : Session) :
  match DatabaseAgent._get_meetings_query agent_params db with
  | Return rows =>
      exists checked counted,
        DatabaseAgent._check_meeting_query agent_params db = Return checked
        /\ DatabaseAgent._count_meetings_query agent_params db = Return counted
        /\ DatabaseAgent.check_meetings checked = rows
        /\ DatabaseAgent.check_count checked = length rows
        /\ DatabaseAgent.count counted = DatabaseAgent.check_count checked
        /\ (DatabaseAgent.check_exists checked = true <-> rows <> [])
  | Raise e =>
      DatabaseAgent._check_meeting_query agent_params db = Raise e
      /\ DatabaseAgent._count_meetings_query agent_params db = Raise e
  end
  /\ (let got := DatabaseTool._execute_get_meetings params db in
      let checked := DatabaseTool._execute_check_meeting params db in
      let counted := DatabaseTool._execute_count_meetings params db in
      DatabaseTool.ck_count checked = length (DatabaseTool.meetings got)
      /\ DatabaseTool.cr_count counted = DatabaseTool.ck_count checked
      /\ (DatabaseTool.ck_exists checked = true <-> DatabaseTool.meetings got <> [])
      /\ (DatabaseTool.ck_message checked = "No meetings found"
          <-> DatabaseTool.ck_count checked = 0%nat)).
Proof.
  split.
  - unfold DatabaseAgent._check_meeting_query, DatabaseAgent._count_meetings_query.
    destruct (DatabaseAgent._get_meetings_query agent_params db) as [rows|e]; simpl.
    + do 2 eexists. repeat split; try reflexivity; simpl.
      * destruct rows; [discriminate | discriminate].
      * destruct rows; [congruence | reflexivity].
    + split; reflexivity.
  - cbv zeta.
    unfold DatabaseTool._execute_check_meeting, DatabaseTool._execute_count_meetings.
    cbn [DatabaseTool.ck_count DatabaseTool.cr_count DatabaseTool.ck_exists
         DatabaseTool.ck_message].
    assert (Hcount : DatabaseTool.count (DatabaseTool._execute_get_meetings params db)
                     = length (DatabaseTool.meetings
                                 (DatabaseTool._execute_get_meetings params db))).
    { unfold DatabaseTool._execute_get_meetings.
      cbn [DatabaseTool.count DatabaseTool.meetings]. now rewrite length_map. }
    rewrite Hcount.
    destruct (DatabaseTool.meetings (DatabaseTool._execute_get_meetings params db))
      as [|d rest]; simpl.
    + repeat split; try reflexivity; try discriminate; congruence.
    + repeat split; try reflexivity; try discriminate.
      intros Hm. exfalso. revert Hm. apply count_message_differs.
Qed.

Lemma firstn_strongly_sorted {A} (R : A -> A -> Prop) (n : nat) (l : list A) :
  StronglySorted R l -> StronglySorted R (firstn n l).
Proof.
  revert l. induction n as [|n IH]; intros l Hl; [constructor|].
  destruct l as [|x l]; [constructor|]. simpl.
  apply StronglySorted_inv in Hl as [Hl Hx].
  constructor; [now apply IH|].
  rewrite List.Forall_forall in *. intros y Hy. apply Hx.
  now apply firstn_incl in Hy.
Qed.

Lemma datetime_leb_total (a b : datetime) :
  datetime_leb a b = false -> datetime_leb b a = true.
Proof.
  unfold datetime_leb. intros Hab.
  apply orb_false_iff in Hab as [Hlt Heq].
  apply Z.ltb_ge in Hlt.
  apply orb_true_iff.
  destruct (Z.eq_dec (dt_date a) (dt_date b)) as [Hd | Hd].
  - right. rewrite Hd, Z.eqb_refl in *. simpl in *.
    apply Z.leb_gt in Heq. apply Z.leb_le. lia.
  - left. apply Z.ltb_lt. lia.
Qed.

Lemma datetime_leb_trans (a b c : datetime) :
  datetime_leb a b = true -> datetime_leb b c = true -> datetime_leb a c = true.
Proof.
  unfold datetime_leb. rewrite !orb_true_iff, !andb_true_iff.
  rewrite !Z.ltb_lt, !Z.eqb_eq, !Z.leb_le. lia.
Qed.

Lemma insert_by_date_sorted (m : Meeting) (l : list Meeting) :
  StronglySorted no_later l -> StronglySorted no_later (insert_by_date m l).
Proof.
  induction 1 as [|x l Hl IH Hx]; simpl.
  - repeat constructor.
  - destruct (datetime_leb (scheduled_date m) (scheduled_date x)) eqn:Hmx.
    + constructor; [now constructor|].
      constructor; [exact Hmx|].
      rewrite List.Forall_forall in *. intros y Hy.
      apply (datetime_leb_trans _ (scheduled_date x)); [exact Hmx | now apply Hx].
    + constructor; [exact IH|].
      rewrite List.Forall_forall in *. intros y Hy.
      apply (Permutation_in y (insert_by_date_permutation m l)) in Hy as [<- | Hy].
      * now apply datetime_leb_total.
      * now apply Hx.
Qed.

Lemma order_by_sorted (l : list Meeting) :
  StronglySorted no_later (order_by_scheduled_date l).
Proof.
  unfold order_by_scheduled_date.
  induction l as [|x l IH]; simpl; [constructor | now apply insert_by_date_sorted].
Qed.

(** The rows the tool's get selects before it orders and limits them come
    from the store. *)
Lemma tool_rows_from_store (params : DatabaseTool.Params) (db : Session) :
  exists selected,
    incl selected (meetings db)
    /\ DatabaseTool.meetings (DatabaseTool._execute_get_meetings params db)
       = map to_dict
           (firstn (default 10%nat (DatabaseTool.limit params))
              (order_by_scheduled_date selected)).
Proof.
  unfold DatabaseTool._execute_get_meetings. cbn [DatabaseTool.meetings].
  eexists. split; [|reflexivity].
  assert (Hf : forall p (l : list Meeting), incl (List.filter p l) l)
    by (intros p l x Hx; now apply filter_In in Hx).
  assert (Hif : forall (b : bool) p (l : list Meeting),
             incl (if b then List.filter p l else l) l)
    by (intros [] p l; [apply Hf | apply incl_refl]).
  eapply incl_tran; [apply Hif|].
  eapply incl_tran.
  { destruct (DatabaseTool.is_type _ "review"); [apply Hf|]. apply Hif. }
  destruct (DatabaseTool.df_start _); [destruct (DatabaseTool.df_end _)|];
    try apply incl_refl.
  apply Hf.
Qed.

(** X4. Get never returns more rows than the limit of its parameters, 10
    when they give none, and every row it returns is a row of the store, in
    the agent (when it returns) and in the tool. *)
Theorem get_is_bounded (agent_params : DatabaseAgent.Params)
    (params : DatabaseTool.Params) (db : Session) :
  (forall rows,
     DatabaseAgent._get_meetings_query agent_params db = Return rows ->
     (length rows <= default 10 (DatabaseAgent.limit agent_params))%nat
     /\ forall r, In r rows -> exists m, In m (meetings db) /\ r = DatabaseAgent.row_of m)
  /\ (let got := DatabaseTool._execute_get_meetings params db in
      (DatabaseTool.count got <= default 10 (DatabaseTool.limit params))%nat
      /\ (length (DatabaseTool.meetings got) <= default 10 (DatabaseTool.limit params))%nat
      /\ forall d, In d (DatabaseTool.meetings got) ->
                   exists m, In m (meetings db) /\ d = to_dict m).
Proof.
  split.
  - intros rows. unfold DatabaseAgent._get_meetings_query.
    match goal with
    | |- context [Py.bind ?c _] => destruct c as [selected|e] eqn:Hsel
    end; cbn [Py.bind]; [|discriminate].
    assert (Hstore : incl selected (meetings db)).
    { revert Hsel. destruct (_ || _).
      - destruct (DatabaseAgent.getitem "start_date" _); simpl; [|discriminate].
        destruct (DatabaseAgent.getitem "end_date" _); simpl; [|discriminate].
        intros [= <-] m Hm. now apply filter_In in Hm.
      - intros [= <-]. apply incl_refl. }
    clear Hsel.
    assert (Hrows : forall chosen,
              incl chosen selected ->
              Return (map DatabaseAgent.row_of
                        (limit_rows (default 10%nat (DatabaseAgent.limit agent_params))
                           chosen)) = Return rows ->
              (length rows <= default 10%nat (DatabaseAgent.limit agent_params))%nat
              /\ forall r, In r rows ->
                           exists m, In m (meetings db) /\ r = DatabaseAgent.row_of m).
    { intros chosen Hchosen [= <-]. rewrite length_map.
      split; [apply firstn_le_length|].
      intros r Hr. apply in_map_iff in Hr as (m & <- & Hm).
      exists m. split; [|reflexivity].
      apply Hstore, Hchosen. now apply firstn_incl in Hm. }
    destruct (DatabaseAgent.is_type _ "review"); cbn [Py.bind].
    { apply Hrows. intros m Hm. now apply filter_In in Hm. }
    destruct (DatabaseAgent.is_type _ "team"); cbn [Py.bind].
    { unfold DatabaseAgent.team_condition, DatabaseAgent.participants_any.
      cbn [Py.bind]. discriminate. }
    apply Hrows, incl_refl.
  - destruct (tool_rows_from_store params db) as (selected & Hincl & Hrows).
    cbv zeta.
    assert (Hcount : DatabaseTool.count (DatabaseTool._execute_get_meetings params db)
                     = length (DatabaseTool.meetings
                                 (DatabaseTool._execute_get_meetings params db))).
    { unfold DatabaseTool._execute_get_meetings.
      cbn [DatabaseTool.count DatabaseTool.meetings]. now rewrite length_map. }
    rewrite Hcount, Hrows, length_map.
    split; [apply firstn_le_length|]. split; [apply firstn_le_length|].
    intros d Hd. apply in_map_iff in Hd as (m & <- & Hm).
    exists m. split; [|reflexivity].
    apply Hincl. apply firstn_incl in Hm.
    apply (Permutation_in m (order_by_permutation selected) Hm).
Qed.

(** X5. The meetings the tool returns are in ascending order of their
    scheduled date, from the natural-language get and from get_meetings:
    each is the list of dictionaries of store rows no one of which is
    scheduled later than a row after it. *)
Theorem tool_results_are_ordered (params : DatabaseTool.Params) (now : datetime)
    (date location : option string) (db : Session) :
  (exists rows,
     DatabaseTool.meetings (DatabaseTool._execute_get_meetings params db)
     = map to_dict rows
     /\ StronglySorted no_later rows /\ incl rows (meetings db))
  /\ (exists rows,
        DatabaseTool.get_meetings now db date location = map to_dict rows
        /\ StronglySorted no_later rows /\ incl rows (meetings db)).
Proof.
  split.
  - destruct (tool_rows_from_store params db) as (selected & Hincl & Hrows).
    eexists. split; [exact Hrows|]. split.
    + apply firstn_strongly_sorted, order_by_sorted.
    + intros m Hm. apply Hincl. apply firstn_incl in Hm.
      apply (Permutation_in m (order_by_permutation selected) Hm).
  - unfold DatabaseTool.get_meetings.
    eexists. split; [reflexivity|]. split; [apply order_by_sorted|].
    intros m Hm. apply (Permutation_in m (order_by_permutation _)) in Hm.
    assert (Hdate : forall l : list Meeting,
               In m (if truthy location
                     then List.filter
                            (DatabaseTool.location_condition (default "" location)) l
                     else l) -> In m l).
    { intros l. destruct (truthy location); [|auto]. intros Hl.
      now apply filter_In in Hl. }
    apply Hdate in Hm.
    destruct (truthy date); [|exact Hm].
    match type of Hm with
    | In m (match ?t with Return _ => _ | Raise _ => _ end) => destruct t
    end; [now apply filter_In in Hm | exact Hm].
Qed.

End QueryFacts.

(* ===================================================================== *)
(** * Date windows *)
(* ===================================================================== *)

Section Windows.

Import Spec.

Context `{PyLib}.

(** The window of one day holds the meetings of that day. *)
Lemma between_day (d : date) (m : Meeting) :
  valid_time (dt_time (scheduled_date m)) ->
  between (combine d time_min) (combine d time_max) m = on_day d m.
Proof.
  unfold valid_time, between, on_day, datetime_leb, combine, time_min, time_max.
  simpl. intros Hvalid.
  destruct (Z.ltb_spec d (dt_date (scheduled_date m)));
    destruct (Z.ltb_spec (dt_date (scheduled_date m)) d);
    destruct (Z.eqb_spec d (dt_date (scheduled_date m)));
    destruct (Z.eqb_spec (dt_date (scheduled_date m)) d);
    destruct (Z.leb_spec 0 (microseconds (dt_time (scheduled_date m))));
    destruct (Z.leb_spec (microseconds (dt_time (scheduled_date m))) 86399999999);
    simpl; try reflexivity; lia.
Qed.

Lemma filter_day (d : date) (rows : list Meeting) :
  (forall m, In m rows -> valid_time (dt_time (scheduled_date m))) ->
  List.filter (between (combine d time_min) (combine d time_max)) rows
  = List.filter (on_day d) rows.
Proof.
  induction rows as [|m rows IH]; intros Hvalid; simpl; [reflexivity|].
  rewrite between_day by (apply Hvalid; now left).
  rewrite IH by (intros x Hx; apply Hvalid; now right). reflexivity.
Qed.

(** The window from midnight of [d] to the last instant of [e]. *)
Lemma between_days (d e : date) (m : Meeting) :
  valid_time (dt_time (scheduled_date m)) ->
  between (combine d time_min) (combine e time_max) m = true
  <-> d <= dt_date (scheduled_date m) <= e.
Proof.
  unfold valid_time, between, datetime_leb, combine, time_min, time_max.
  simpl. intros Hvalid.
  rewrite andb_true_iff, !orb_true_iff, !andb_true_iff.
  rewrite !Z.ltb_lt, !Z.eqb_eq, !Z.leb_le. lia.
Qed.

(** On a clock with a week ahead of it the resolver returns one of its four
    dictionaries. *)
Lemma extract_date_filter_kinds (now : datetime) (query : string)
    (df : DatabaseAgent.DateFilter) :
  has_next_week now ->
  DatabaseAgent._extract_date_filter now query = Return df ->
  df = today_filter now \/ df = tomorrow_filter now
  \/ df = week_filter now \/ df = all_filter.
Proof.
  intros [Hlo Hhi]. unfold DatabaseAgent._extract_date_filter.
  rewrite !date_add_in_range by lia.
  repeat match goal with
         | |- context [if Re.search ?p ?q then _ else _] => destruct (Re.search p q)
         end; simpl; intros [= <-]; auto.
Qed.

(** The tool's get_meetings for a date that resolves to the day [d]. *)
Lemma tool_get_meetings_resolved (now : datetime) (db : Session) (date : string)
    (location : option string) (d : Py.date) :
  valid_times db ->
  date <> "" ->
  (if String.eqb date "today" then Return (dt_date now)
   else if String.eqb date "tomorrow" then date_add (dt_date now) 1
   else if String.eqb date "yesterday" then date_add (dt_date now) (-1)
   else let! parsed := strptime_ymd date in Return (dt_date parsed)) = Return d ->
  DatabaseTool.get_meetings now db (Some date) location
  = map to_dict
      (order_by_scheduled_date (at_location location (List.filter (on_day d) (meetings db)))).
Proof.
  intros Hvalid Hdate Htarget. unfold DatabaseTool.get_meetings.
  cbn [truthy default from_option Datatypes.id].
  apply String.eqb_neq in Hdate. rewrite Hdate. cbn [negb].
  rewrite Htarget, (filter_day d (meetings db) Hvalid). reflexivity.
Qed.

(** X6. With a date that names a day, the tool's get_meetings returns the
    meetings of exactly that calendar day, whatever their time of day, that
    pass the location filter, in ascending order: today, tomorrow and
    yesterday name the days around the clock's, any other string the day
    [strptime] reads from it. *)
Theorem tool_get_meetings_by_day (now : datetime) (db : Session)
    (location : option string) :
  valid_times db ->
  let answer (d : date) :=
    map to_dict
      (order_by_scheduled_date
         (at_location location (List.filter (on_day d) (meetings db)))) in
  DatabaseTool.get_meetings now db (Some "today") location = answer (dt_date now)
  /\ (has_tomorrow now ->
      DatabaseTool.get_meetings now db (Some "tomorrow") location
      = answer (dt_date now + 1))
  /\ (1 < dt_date now <= MAXORDINAL ->
      DatabaseTool.get_meetings now db (Some "yesterday") location
      = answer (dt_date now - 1))
  /\ (forall date parsed,
        date <> "" -> date <> "today" -> date <> "tomorrow" -> date <> "yesterday" ->
        strptime_ymd date = Return parsed ->
        DatabaseTool.get_meetings now db (Some date) location
        = answer (dt_date parsed)).
Proof.
  intros Hvalid answer. subst answer. cbv beta.
  split; [|split; [|split]].
  - apply tool_get_meetings_resolved; [exact Hvalid | discriminate | reflexivity].
  - intros Hclock.
    apply tool_get_meetings_resolved; [exact Hvalid | discriminate |].
    apply (date_add_tomorrow now Hclock).
  - intros Hclock.
    apply tool_get_meetings_resolved; [exact Hvalid | discriminate |].
    change (date_add (dt_date now) (-1) = Return (dt_date now + -1)).
    apply date_add_in_range. lia.
  - intros date parsed H0 H1 H2 H3 Hparse.
    apply tool_get_meetings_resolved; [exact Hvalid | exact H0 |].
    apply String.eqb_neq in H1, H2, H3. now rewrite H1, H2, H3, Hparse.
Qed.

(** X7. What each date filter of the resolver selects among meetings: a
    today filter the meetings of the clock's day, a tomorrow filter those of
    the next day, a week filter those of the eight days from today to the
    seventh day after it, an all filter every meeting. *)
Theorem date_filter_windows (now : datetime) (query : string)
    (df : DatabaseAgent.DateFilter) (m : Meeting) :
  has_next_week now ->
  valid_time (dt_time (scheduled_date m)) ->
  DatabaseAgent._extract_date_filter now query = Return df ->
  (DatabaseAgent.df_type df = Some "today" ->
   (within df m = true <-> dt_date (scheduled_date m) = dt_date now))
  /\ (DatabaseAgent.df_type df = Some "tomorrow" ->
      (within df m = true <-> dt_date (scheduled_date m) = dt_date now + 1))
  /\ (DatabaseAgent.df_type df = Some "week" ->
      (within df m = true
       <-> dt_date now <= dt_date (scheduled_date m) <= dt_date now + 7))
  /\ (DatabaseAgent.df_type df = Some "all" -> within df m = true).
Proof.
  intros Hclock Hvalid Hdf.
  destruct (extract_date_filter_kinds now query df Hclock Hdf)
    as [-> | [-> | [-> | ->]]];
    (split; [|split; [|split]]); intros [=]; try reflexivity.
  - unfold within, today_filter. simpl.
    rewrite (between_days _ _ m Hvalid). lia.
  - unfold within, tomorrow_filter. simpl.
    rewrite (between_days _ _ m Hvalid). lia.
  - unfold within, week_filter. simpl.
    apply (between_days _ _ m Hvalid).
Qed.

(** X8. A natural-language query for today or tomorrow with no category gets
    the first rows, up to its limit, of what the agent's get_meetings
    returns for that date on the same clock and store. *)
Theorem query_is_prefix_of_get_meetings (now : datetime) (query date : string)
    (df : DatabaseAgent.DateFilter) (category : option string) (n : option nat)
    (db : Session) :
  DatabaseAgent._extract_date_filter now query = Return df ->
  DatabaseAgent.df_type df = Some date ->
  date = "today" \/ date = "tomorrow" ->
  DatabaseAgent.is_type category "review" = false ->
  DatabaseAgent.is_type category "team" = false ->
  DatabaseAgent._get_meetings_query
    {| DatabaseAgent.date_filter := Some df;
       DatabaseAgent.meeting_type := category;
       DatabaseAgent.limit := n |} db
  = Return (firstn (default 10%nat n)
              (DatabaseAgent.get_meetings now db (Some date))).
Proof.
  intros Hdf Htype Hdate Hreview Hteam.
  rewrite (get_meetings_query_extracted now query df category n db Hdf).
  rewrite Hreview, Hteam. cbv zeta. unfold limit_rows.
  assert (Hget : DatabaseAgent.get_meetings now db (Some date)
                 = map DatabaseAgent.row_of (List.filter (within df) (meetings db))).
  { revert Hdf Htype. unfold DatabaseAgent._extract_date_filter.
    destruct (Re.search (DatabaseAgent.pattern "today") query).
    { intros [= <-] [= <-]. reflexivity. }
    destruct (Re.search (DatabaseAgent.pattern "tomorrow") query).
    { unfold DatabaseAgent.get_meetings.
      destruct (date_add (dt_date now) 1) as [tomorrow|e] eqn:Hadd; simpl;
        [|discriminate].
      intros [= <-] [= <-]. reflexivity. }
    destruct (Re.search (DatabaseAgent.pattern "week") query).
    { destruct (date_add (dt_date now) 7); simpl; [|discriminate].
      intros [= <-] [= <-]. destruct Hdate; discriminate. }
    intros [= <-] [= <-]. destruct Hdate; discriminate. }
  rewrite Hget, firstn_map. reflexivity.
Qed.

(** X9. The agent's get_meetings does not know the word yesterday: it hands
    it to [strptime], which rejects it, and returns every meeting of the
    store, while the tool's get_meetings returns the meetings of the day
    before the clock's. *)
Theorem yesterday_only_in_tool (now : datetime) (db : Session) :
  (exists e, strptime_ymd "yesterday" = Raise e) ->
  1 < dt_date now <= MAXORDINAL ->
  valid_times db ->
  DatabaseAgent.get_meetings now db (Some "yesterday")
  = map DatabaseAgent.row_of (meetings db)
  /\ DatabaseTool.get_meetings now db (Some "yesterday") None
     = map to_dict
         (order_by_scheduled_date (List.filter (on_day (dt_date now - 1)) (meetings db))).
Proof.
  intros [e He] Hclock Hvalid. split.
  - unfold DatabaseAgent.get_meetings.
    cbn [truthy negb String.eqb default from_option Datatypes.id]. simpl.
    rewrite He. reflexivity.
  - rewrite (tool_get_meetings_resolved now db "yesterday" None (dt_date now - 1) Hvalid).
    + reflexivity.
    + discriminate.
    + change (date_add (dt_date now) (-1) = Return (dt_date now + -1)).
      apply date_add_in_range. lia.
Qed.

End Windows.

Lemma sample_times_valid (rows : list Meeting) :
  Forall (fun m => valid_time (dt_time (scheduled_date m))) rows ->
  Spec.valid_times (Spec.sample_store rows).
Proof.
  intros Hrows m Hm. now apply (proj1 (List.Forall_forall _ _) Hrows).
Qed.

Lemma tool_get_meetings_by_day_witness :
  @DatabaseTool.get_meetings AsciiLib.ascii_lib Spec.sample_now
    (Spec.sample_store [Spec.sample_meeting 1 "Team sync" 738887 ["ann"];
                        Spec.sample_meeting 2 "Review" 738886 []])
    (Some "today") None
  = [@to_dict AsciiLib.ascii_lib (Spec.sample_meeting 2 "Review" 738886 [])].
Proof.
  apply (@tool_get_meetings_by_day AsciiLib.ascii_lib Spec.sample_now
           (Spec.sample_store [Spec.sample_meeting 1 "Team sync" 738887 ["ann"];
                               Spec.sample_meeting 2 "Review" 738886 []]) None).
  apply sample_times_valid.
  repeat constructor; unfold valid_time; simpl; lia.
Defined.

Lemma date_filter_windows_witness :
  Spec.within (Spec.week_filter Spec.sample_now)
    (Spec.sample_meeting 1 "Team sync" 738893 []) = true
  <-> dt_date Spec.sample_now
      <= dt_date (scheduled_date (Spec.sample_meeting 1 "Team sync" 738893 []))
      <= dt_date Spec.sample_now + 7.
Proof.
  assert (Hclock : has_next_week Spec.sample_now)
    by (unfold has_next_week, MAXORDINAL; simpl; lia).
  assert (Hvalid : valid_time
                     (dt_time (scheduled_date (Spec.sample_meeting 1 "Team sync" 738893 []))))
    by (unfold valid_time; simpl; lia).
  apply (date_filter_windows Spec.sample_now "meetings this week"
           (Spec.week_filter Spec.sample_now)
           (Spec.sample_meeting 1 "Team sync" 738893 []) Hclock Hvalid eq_refl).
  reflexivity.
Defined.

Lemma query_is_prefix_of_get_meetings_witness :
  @DatabaseAgent._get_meetings_query AsciiLib.ascii_lib
    {| DatabaseAgent.date_filter := Some (Spec.today_filter Spec.sample_now);
       DatabaseAgent.meeting_type := Some "any";
       DatabaseAgent.limit := Some 10%nat |}
    (Spec.sample_store [Spec.sample_meeting 2 "Review" 738886 []])
  = Return (firstn 10
              (@DatabaseAgent.get_meetings AsciiLib.ascii_lib Spec.sample_now
                 (Spec.sample_store [Spec.sample_meeting 2 "Review" 738886 []])
                 (Some "today"))).
Proof.
  apply (@query_is_prefix_of_get_meetings AsciiLib.ascii_lib Spec.sample_now
           "show meetings today" "today").
  - reflexivity.
  - reflexivity.
  - now left.
  - reflexivity.
  - reflexivity.
Defined.

Lemma yesterday_only_in_tool_witness :
  @DatabaseAgent.get_meetings AsciiLib.ascii_lib Spec.sample_now
    (Spec.sample_store [Spec.sample_meeting 1 "Team sync" 738887 ["ann"];
                        Spec.sample_meeting 2 "Review" 738885 []])
    (Some "yesterday")
  = map (@DatabaseAgent.row_of AsciiLib.ascii_lib)
      [Spec.sample_meeting 1 "Team sync" 738887 ["ann"];
       Spec.sample_meeting 2 "Review" 738885 []]
  /\ @DatabaseTool.get_meetings AsciiLib.ascii_lib Spec.sample_now
       (Spec.sample_store [Spec.sample_meeting 1 "Team sync" 738887 ["ann"];
                           Spec.sample_meeting 2 "Review" 738885 []])
       (Some "yesterday") None
     = [@to_dict AsciiLib.ascii_lib (Spec.sample_meeting 2 "Review" 738885 [])].
Proof.
  apply (@yesterday_only_in_tool AsciiLib.ascii_lib Spec.sample_now
           (Spec.sample_store [Spec.sample_meeting 1 "Team sync" 738887 ["ann"];
                               Spec.sample_meeting 2 "Review" 738885 []])).
  - eexists. reflexivity.
  - unfold MAXORDINAL. simpl. lia.
  - apply sample_times_valid.
    repeat constructor; unfold valid_time; simpl; lia.
Defined.

(* ===================================================================== *)
(** * The two query front ends *)
(* ===================================================================== *)

Section FrontEnds.

Context `{PyLib}.

Lemma parse_query_returns (now : datetime) (query : string) :
  has_next_week now ->
  exists query_type df,
    DatabaseAgent._extract_date_filter now (str_lower query) = Return df
    /\ DatabaseAgent._parse_query now query
       = Return (query_type,
                 {| DatabaseAgent.date_filter := Some df;
                    DatabaseAgent.meeting_type :=
                      Some (DatabaseAgent._extract_meeting_type (str_lower query));
                    DatabaseAgent.limit := Some 10%nat |})
    /\ (query_type = "get_meetings" \/ query_type = "check_meeting"
        \/ query_type = "count_meetings" \/ query_type = "unknown").
Proof.
  intros Hclock.
  destruct (extract_date_filter_returns now (str_lower query) Hclock) as [df Hdf].
  unfold DatabaseAgent._parse_query. rewrite Hdf. cbn [Py.bind].
  eexists. exists df. split; [reflexivity|]. split; [reflexivity|].
  repeat match goal with
         | |- context [if ?c then _ else _] => destruct c
         end; tauto.
Qed.

Lemma extract_meeting_type_cases (query : string) :
  DatabaseAgent._extract_meeting_type query = "review"
  \/ DatabaseAgent._extract_meeting_type query = "team"
  \/ DatabaseAgent._extract_meeting_type query = "any".
Proof.
  unfold DatabaseAgent._extract_meeting_type.
  destruct (Re.search _ query); [tauto|].
  destruct (Re.search _ query); tauto.
Qed.

(** X10. Neither query front end raises. On a clock with a week ahead of it,
    the agent's [process_query] answers a query of the type unknown with the
    not-understood error, with or without a session. For any other type:
    with the default [db_session=None] it returns the dictionary of its
    [except] with the AttributeError text of [None.query] and the query
    echoed; with a session it returns that dictionary with the text of
    SQLAlchemy's AttributeError when the category is team, and answers with
    a result that is no error for every other category. The tool's
    [natural_language_query] fails only when one of its two parsing methods
    raises, and echoes the query as it was typed in both outcomes. *)
Theorem query_front_ends (now answered : datetime) (query : string) (db : Session)
    (self : DatabaseTool.DatabaseTool) :
  has_next_week now ->
  (exists query_type params,
     DatabaseAgent._parse_query now query = Return (query_type, params)
     /\ (query_type = "unknown" ->
         forall db_session,
           DatabaseAgent.process_query now answered query db_session
           = DatabaseAgent.Answer query_type params
               (DatabaseAgent.NotUnderstood "Could not understand query")
               (isoformat answered))
     /\ (query_type <> "unknown" ->
         DatabaseAgent.process_query now answered query None
         = DatabaseAgent.Failed
             "Query processing error: 'NoneType' object has no attribute 'query'"
             query)
     /\ (query_type <> "unknown" ->
         DatabaseAgent.meeting_type params = Some "team" ->
         DatabaseAgent.process_query now answered query (Some db)
         = DatabaseAgent.Failed ("Query processing error: " ++ column_has_no_any) query)
     /\ (query_type <> "unknown" ->
         DatabaseAgent.meeting_type params <> Some "team" ->
         exists result,
           DatabaseAgent.process_query now answered query (Some db)
           = DatabaseAgent.Answer query_type params result (isoformat answered)
           /\ result <> DatabaseAgent.NotUnderstood "Could not understand query"))
  /\ match DatabaseTool._parse_query_type self (str_lower query),
           DatabaseTool._extract_parameters self (str_lower query) with
     | Return query_type, Return params =>
         exists result,
           DatabaseTool.natural_language_query self answered query db
           = DatabaseTool.Answer query_type params result query (isoformat answered)
     | Raise e, _ | Return _, Raise e =>
         DatabaseTool.natural_language_query self answered query db
         = DatabaseTool.Failed ("Query processing error: " ++ exn_str e) query
     end.
Proof.
  intros Hclock. split.
  - destruct (parse_query_returns now query Hclock)
      as (query_type & df & Hdf & Hparse & Htype).
    eexists. eexists. split; [exact Hparse|].
    unfold DatabaseAgent.process_query. rewrite Hparse.
    cbn [Py.bind fst snd DatabaseAgent.session_of DatabaseAgent.meeting_type].
    unfold DatabaseAgent._check_meeting_query, DatabaseAgent._count_meetings_query.
    rewrite (get_meetings_query_extracted now (str_lower query) df _ _ db Hdf).
    destruct (extract_meeting_type_cases (str_lower query)) as [-> | [-> | ->]];
      destruct Htype as [-> | [-> | [-> | ->]]]; simpl;
      repeat split; intros; try reflexivity; try congruence;
      try (eexists; split; [reflexivity | discriminate]).
  - unfold DatabaseTool.natural_language_query.
    destruct (DatabaseTool._parse_query_type self (str_lower query)) as [query_type|e];
      simpl; [|reflexivity].
    destruct (DatabaseTool._extract_parameters self (str_lower query)) as [params|e];
      simpl; [|reflexivity].
    eexists. reflexivity.
Qed.

End FrontEnds.

Lemma query_front_ends_witness :
  @DatabaseAgent.process_query AsciiLib.ascii_lib Spec.sample_now Spec.sample_now
    "Show team meetings tomorrow"
    (Some (Spec.sample_store [Spec.sample_meeting 1 "Team sync" 738887 ["ann"]]))
  = DatabaseAgent.Failed
      ("Query processing error: " ++ @column_has_no_any AsciiLib.ascii_lib)
      "Show team meetings tomorrow".
Proof.
  assert (Hclock : has_next_week Spec.sample_now)
    by (unfold has_next_week, MAXORDINAL; simpl; lia).
  destruct (@query_front_ends AsciiLib.ascii_lib Spec.sample_now Spec.sample_now
              "Show team meetings tomorrow"
              (Spec.sample_store [Spec.sample_meeting 1 "Team sync" 738887 ["ann"]])
              {| DatabaseTool._parse_query_type := fun _ => Return "count_meetings";
                 DatabaseTool._extract_parameters := fun _ =>
                   Raise (Exn "KeyError" "'date_filter'") |}
              Hclock)
    as ((query_type & params & Hparse & _ & _ & Hteam & _) & _).
  vm_compute in Hparse. injection Hparse as <- <-.
  apply Hteam; [discriminate | reflexivity].
Defined.

(* ===================================================================== *)
(** * What [process] does to the response and to the store *)
(* ===================================================================== *)

Section RouterEffects.

Import Orchestrator Spec.

Context `{PyLib}.
Variable commit_fault : Session -> option exn.
Variable self : OrchestratorAgent.
Variable now : datetime.

(** The store after [_save_conversation]: the entry and everything pending
    committed, or everything pending dropped. *)
Lemma save_conversation_effect (db : SessionRef) (conversation_id : option string)
    (message : string) (handled : Response) (agent_type : string) (s : Session) :
  _save_conversation commit_fault db conversation_id message
    (dict_get handled "response" (PyStr "")) agent_type
    (dict_get handled "confidence" (PyInt 0)) s
  = (Return tt,
     let entry := log_entry conversation_id message agent_type handled in
     match commit_fault {| meetings := meetings s;
                           conversations := conversations s;
                           pending := pending s ++ [entry] |} with
     | None => {| meetings := meetings s;
                  conversations := conversations s ++ pending s ++ [entry];
                  pending := [] |}
     | Some _ => {| meetings := meetings s;
                    conversations := conversations s;
                    pending := [] |}
     end).
Proof.
  unfold _save_conversation, try_exceptM, bindM, session_add, session_commit,
    session_rollback, log_entry.
  cbv zeta. simpl.
  destruct (commit_fault _); reflexivity.
Qed.

(** The body of the [try], when the agent is determined and its handler
    returns: the response with the metadata, and the store the log write
    leaves. *)
Lemma process_try_state (message : string) (conversation_id : option string)
    (db : option SessionRef) (s s0 : Session) (agent_type : string)
    (handled : Response) :
  _determine_agent self message = Return agent_type ->
  routed self agent_type message db s = (Return handled, s0) ->
  process_try commit_fault self now message conversation_id db s
  = (Return (dict_update handled
               [ ("agent_used", PyStr agent_type);
                 ("conversation_id", opt_str conversation_id);
                 ("timestamp", PyStr (isoformat now));
                 ("original_message", PyStr message) ]),
     match db with
     | Some ref =>
         snd (_save_conversation commit_fault ref conversation_id message
                (dict_get handled "response" (PyStr "")) agent_type
                (dict_get handled "confidence" (PyInt 0)) s0)
     | None => s0
     end).
Proof.
  intros Hagent Hrouted. unfold process_try.
  unfold bindM at 1, lift at 1. rewrite Hagent.
  change (if (agent_type =? "weather")%string then _ else _)
    with (routed self agent_type message db).
  unfold bindM at 1. rewrite Hrouted.
  unfold bindM, ret.
  destruct db as [ref|]; [|reflexivity].
  rewrite save_conversation_effect. reflexivity.
Qed.

(** X11. [process] keeps every field of the handler's response except the
    four it writes itself: agent_used, conversation_id, timestamp and
    original_message take the metadata also when the handler had set them,
    and every other key reads as in the handler's response. *)
Theorem process_keeps_handler_fields (message : string)
    (conversation_id : option string) (db : option SessionRef) (s s0 : Session)
    (agent_type : string) (handled : Response) :
  _determine_agent self message = Return agent_type ->
  routed self agent_type message db s = (Return handled, s0) ->
  exists envelope s1,
    process commit_fault self now message conversation_id db s = (Return envelope, s1)
    /\ (forall key, ~ In key metadata_keys -> envelope !! key = handled !! key)
    /\ envelope !! "agent_used" = Some (PyStr agent_type)
    /\ envelope !! "conversation_id" = Some (opt_str conversation_id)
    /\ envelope !! "timestamp" = Some (PyStr (isoformat now))
    /\ envelope !! "original_message" = Some (PyStr message).
Proof.
  intros Hagent Hrouted.
  rewrite process_unfold,
    (process_try_state message conversation_id db s s0 agent_type handled Hagent Hrouted).
  do 2 eexists. split; [reflexivity|].
  destruct (metadata_fields now handled agent_type message conversation_id)
    as (Hu & Hc & Ht & Hm).
  split; [|auto].
  intros key Hkey. unfold dict_update, metadata_keys in *. simpl in *.
  rewrite !lookup_insert_ne; [reflexivity | | | |]; intros <-; apply Hkey; auto.
Qed.

(** X12. What a completed [process] writes to the store, given the store
    [s0] its handler left. With a session and a commit that goes through,
    the conversation table gains what was pending and then one row holding
    the message, the agent type, the conversation id and the response text
    and confidence of the handler's response (an empty text and 0 when it
    has none); when the commit fails nothing is added and what was pending
    is dropped; the meetings are untouched either way, and nothing is left
    pending. Without a session the store is the one the handler left. *)
Theorem process_log_effect (message : string) (conversation_id : option string)
    (db : option SessionRef) (s s0 : Session) (agent_type : string)
    (handled : Response) :
  _determine_agent self message = Return agent_type ->
  routed self agent_type message db s = (Return handled, s0) ->
  let after := snd (process commit_fault self now message conversation_id db s) in
  let entry := log_entry conversation_id message agent_type handled in
  match db with
  | None => after = s0
  | Some _ =>
      meetings after = meetings s0
      /\ pending after = []
      /\ match commit_fault {| meetings := meetings s0;
                               conversations := conversations s0;
                               pending := pending s0 ++ [entry] |} with
         | None => conversations after
                   = (conversations s0 ++ pending s0 ++ [entry])%list
         | Some _ => conversations after = conversations s0
         end
  end.
Proof.
  intros Hagent Hrouted after entry. subst after.
  rewrite process_unfold,
    (process_try_state message conversation_id db s s0 agent_type handled Hagent Hrouted).
  destruct db as [ref|]; [|reflexivity].
  rewrite save_conversation_effect. cbn [snd]. cbv zeta. fold entry.
  destruct (commit_fault _); auto.
Qed.

(** X13. A failed exchange is never logged: when [_determine_agent] or the
    handler raises, [process] returns the error dictionary and leaves the
    store as the exception left it, unchanged when it is [_determine_agent]
    that raised. *)
Theorem process_failure_is_not_logged (message : string)
    (conversation_id : option string) (db : option SessionRef) (s : Session) :
  (forall e, _determine_agent self message = Raise e ->
             process commit_fault self now message conversation_id db s
             = (Return (error_response e), s))
  /\ (forall agent_type e s0,
        _determine_agent self message = Return agent_type ->
        routed self agent_type message db s = (Raise e, s0) ->
        process commit_fault self now message conversation_id db s
        = (Return (error_response e), s0)).
Proof.
  split.
  - intros e Hagent. rewrite process_unfold.
    unfold process_try. unfold bindM at 1, lift at 1. rewrite Hagent. reflexivity.
  - intros agent_type e s0 Hagent Hrouted. rewrite process_unfold.
    unfold process_try. unfold bindM at 1, lift at 1. rewrite Hagent.
    change (if (agent_type =? "weather")%string then _ else _)
      with (routed self agent_type message db).
    unfold bindM at 1. rewrite Hrouted. reflexivity.
Qed.

End RouterEffects.

Lemma process_keeps_handler_fields_witness :
  exists envelope s1,
    @Orchestrator.process AsciiLib.ascii_lib Spec.no_fault Spec.puzzled Spec.sample_now
      "asdf qwerty" None None (Spec.sample_store [])
    = (Return envelope, s1)
    /\ envelope !! "response" = Some (PyStr "I could not understand that.")
    /\ envelope !! "original_message" = Some (PyStr "asdf qwerty").
Proof.
  destruct (@process_keeps_handler_fields AsciiLib.ascii_lib Spec.no_fault Spec.puzzled
              Spec.sample_now "asdf qwerty" None None
              (Spec.sample_store []) (Spec.sample_store []) "unknown"
              (<["confidence" := PyInt 0]>
                 (<["response" := PyStr "I could not understand that."]> ∅))
              eq_refl eq_refl)
    as (envelope & s1 & Hprocess & Hkeep & _ & _ & _ & Hmessage).
  exists envelope, s1. split; [exact Hprocess|]. split; [|exact Hmessage].
  rewrite Hkeep; [reflexivity|].
  unfold Spec.metadata_keys. simpl. intros [? | [? | [? | [? | []]]]]; discriminate.
Defined.

Lemma process_log_effect_witness :
  let after :=
    snd (@Orchestrator.process AsciiLib.ascii_lib Spec.no_fault Spec.puzzled
           Spec.sample_now "asdf qwerty" (Some "c1")
           (Some Orchestrator.the_session) (Spec.sample_store [])) in
  conversations after
  = [Spec.log_entry (Some "c1") "asdf qwerty" "unknown"
       (<["confidence" := PyInt 0]>
          (<["response" := PyStr "I could not understand that."]> ∅))].
Proof.
  pose proof (@process_log_effect AsciiLib.ascii_lib Spec.no_fault Spec.puzzled
                Spec.sample_now "asdf qwerty" (Some "c1")
                (Some Orchestrator.the_session)
                (Spec.sample_store []) (Spec.sample_store []) "unknown"
                (<["confidence" := PyInt 0]>
                   (<["response" := PyStr "I could not understand that."]> ∅))
                eq_refl eq_refl) as Heffect.
  cbv zeta in Heffect. destruct Heffect as (_ & _ & Hlog). exact Hlog.
Defined.

(* ===================================================================== *)
(** * Scheduling a meeting *)
(* ===================================================================== *)

Section ScheduleFacts.

Import SchedulingAgent Spec.

Context `{PyLib} `{PyDynamic}.

Variable self : WeatherAgent.
Variable commit_fault : Session -> Meeting -> option exn.
Variables now later utcnow : datetime.

(** [_parse_date] reads the day of the clock only. *)
Lemma parse_date_same_day (a b : datetime) (date : string) :
  dt_date a = dt_date b -> _parse_date a date = _parse_date b date.
Proof.
  intros Hday. unfold _parse_date. now rewrite Hday.
Qed.

Lemma datetime_eqb_eq (a b : datetime) : datetime_eqb a b = true <-> a = b.
Proof.
  destruct a as [da [ta]], b as [db [tb]]. unfold datetime_eqb. simpl.
  rewrite andb_true_iff, !Z.eqb_eq. split; [intros [-> ->] | intros [= -> ->]]; auto.
Qed.

(** The four ways [schedule_meeting] ends. *)
Lemma schedule_meeting_cases (location date meeting_title : string)
    (participants : option (list string)) (db : Session) :
  let run := schedule_meeting self commit_fault now later utcnow
               location date meeting_title participants db in
  (sr_status (fst run) = "error" /\ snd run = db)
  \/ (exists w good m,
        get_weather self location date = Return w
        /\ w !! "error" = None
        /\ is_good_weather self w = Return good
        /\ _check_existing_meeting now db date location meeting_title = Return (Some m)
        /\ sr_status (fst run) = "exists"
        /\ sr_meeting_id (fst run) = Some (Store.id m)
        /\ snd run = db)
  \/ (exists w scheduled,
        get_weather self location date = Return w
        /\ w !! "error" = None
        /\ is_good_weather self w = Return true
        /\ _check_existing_meeting now db date location meeting_title = Return None
        /\ _parse_date later date = Return scheduled
        /\ sr_status (fst run) = "scheduled"
        /\ sr_meeting_id (fst run) = Some (next_id (meetings db))
        /\ snd run = with_meeting db
                       (scheduled_row utcnow db location meeting_title scheduled
                          participants w))
  \/ (exists w reason,
        get_weather self location date = Return w
        /\ w !! "error" = None
        /\ is_good_weather self w = Return false
        /\ _check_existing_meeting now db date location meeting_title = Return None
        /\ _get_weather_reason w = Return reason
        /\ sr_status (fst run) = "cancelled"
        /\ sr_reason (fst run) = Some reason
        /\ snd run = db).
Proof.
  cbv zeta. unfold schedule_meeting, schedule_try.
  destruct (get_weather self location date) as [w|e] eqn:Hw; cbn [Py.bind]; [|now left].
  destruct (w !! "error") as [err|] eqn:Herr; [now left|].
  destruct (is_good_weather self w) as [good|e] eqn:Hgood; cbn [Py.bind]; [|now left].
  destruct (_check_existing_meeting now db date location meeting_title)
    as [[m|]|e] eqn:Hcheck; cbn [Py.bind]; [| |now left].
  - right. left. exists w, good, m. repeat split; try reflexivity; assumption.
  - destruct good.
    + destruct (_parse_date later date) as [scheduled|e] eqn:Hparse; cbn [Py.bind];
        [|now left].
      destruct (commit_fault db _) eqn:Hfault; [now left|].
      right. right. left. exists w, scheduled.
      repeat split; try reflexivity; assumption.
    + destruct (_get_weather_reason w) as [reason|e] eqn:Hreason; cbn [Py.bind];
        [|now left].
      right. right. right. exists w, reason.
      repeat split; try reflexivity; assumption.
Qed.

(** X14. [schedule_meeting] ends in one of four statuses and changes the
    store only with the status scheduled: then the weather agent returned a
    report without an error key and judged it good, and the store gained
    exactly one meeting, with a new id, the given title and location, the
    date [_parse_date] reads from the date string, and the status
    scheduled; with any other status the store is as it was. *)
Theorem schedule_adds_one_meeting_or_nothing (location date meeting_title : string)
    (participants : option (list string)) (db : Session) :
  let run := schedule_meeting self commit_fault now later utcnow
               location date meeting_title participants db in
  In (sr_status (fst run)) ["error"; "exists"; "scheduled"; "cancelled"]
  /\ (sr_status (fst run) <> "scheduled" -> snd run = db)
  /\ (sr_status (fst run) = "scheduled" ->
      exists w scheduled,
        get_weather self location date = Return w
        /\ w !! "error" = None
        /\ is_good_weather self w = Return true
        /\ _parse_date later date = Return scheduled
        /\ sr_meeting_id (fst run) = Some (next_id (meetings db))
        /\ snd run = with_meeting db
                       (scheduled_row utcnow db location meeting_title scheduled
                          participants w)).
Proof.
  cbv zeta.
  destruct (schedule_meeting_cases location date meeting_title participants db)
    as [(Hs & Hdb) | [(w & good & m & Hw & He & Hg & Hc & Hs & Hid & Hdb)
       | [(w & scheduled & Hw & He & Hg & Hc & Hp & Hs & Hid & Hdb)
       | (w & reason & Hw & He & Hg & Hc & Hr & Hs & Hre & Hdb)]]];
    rewrite Hs; (split; [simpl; tauto|]); split;
    try (intros _; exact Hdb); try discriminate; try congruence.
  intros _. exists w, scheduled. auto 10.
Qed.

Lemma find_none_iff {A} (p : A -> bool) (l : list A) :
  find p l = None <-> forall x, In x l -> p x = false.
Proof.
  induction l as [|y l IH]; simpl; [split; [intros _ x [] | reflexivity]|].
  destruct (p y) eqn:Hy.
  - split; [discriminate | intros Hall; specialize (Hall y (or_introl eq_refl)); congruence].
  - rewrite IH. split.
    + intros Hall x [<- | Hx]; auto.
    + intros Hall x Hx. apply Hall. now right.
Qed.

(** No meeting of the store has the slot the check looked for. *)
Lemma check_none_no_slot (clock : datetime) (db : Session)
    (date location meeting_title : string) (target : datetime) :
  _check_existing_meeting clock db date location meeting_title = Return None ->
  _parse_date clock date = Return target ->
  ~ In (meeting_title, location, target) (map slot (meetings db)).
Proof.
  unfold _check_existing_meeting. intros Hcheck Hparse. rewrite Hparse in Hcheck.
  cbn [Py.bind] in Hcheck. injection Hcheck as Hfind.
  intros Hin. apply in_map_iff in Hin as (m & Hslot & Hm).
  apply (proj1 (find_none_iff _ _) Hfind) in Hm.
  unfold slot in Hslot. injection Hslot as Ht Hl Hd.
  rewrite Ht, Hl, Hd, !String.eqb_refl in Hm. simpl in Hm.
  assert (datetime_eqb target target = true) by now apply datetime_eqb_eq.
  congruence.
Qed.

Lemma check_returns_parse (clock : datetime) (db : Session)
    (date location meeting_title : string) (found : option Meeting) :
  _check_existing_meeting clock db date location meeting_title = Return found ->
  exists target, _parse_date clock date = Return target.
Proof.
  unfold _check_existing_meeting.
  destruct (_parse_date clock date) as [target|e]; [eauto | discriminate].
Qed.

(** X15. Scheduling keeps the slots of the store distinct: when no two
    meetings of the store share title, location and scheduled date, and the
    clock does not pass midnight between the check for an existing meeting
    and the dating of the new one, no two meetings share them afterwards. *)
Theorem schedule_keeps_slots_distinct (location date meeting_title : string)
    (participants : option (list string)) (db : Session) :
  List.NoDup (map slot (meetings db)) ->
  dt_date later = dt_date now ->
  List.NoDup (map slot
           (meetings (snd (schedule_meeting self commit_fault now later utcnow
                             location date meeting_title participants db)))).
Proof.
  intros Hdistinct Hday.
  destruct (schedule_meeting_cases location date meeting_title participants db)
    as [(Hs & Hdb) | [(w & good & m & Hw & He & Hg & Hc & Hs & Hid & Hdb)
       | [(w & scheduled & Hw & He & Hg & Hc & Hp & Hs & Hid & Hdb)
       | (w & reason & Hw & He & Hg & Hc & Hr & Hs & Hre & Hdb)]]];
    rewrite Hdb; try exact Hdistinct.
  unfold with_meeting. cbn [meetings]. rewrite map_app.
  pose proof (parse_date_same_day later now date Hday) as Hsame.
  assert (Hp' : _parse_date now date = Return scheduled) by congruence.
  apply List.NoDup_app; [exact Hdistinct | repeat constructor; intros [] |].
  intros x Hx Hnew. simpl in Hnew. destruct Hnew as [<- | []].
  revert Hx.
  apply (check_none_no_slot now db date location meeting_title scheduled Hc Hp').
Qed.

End ScheduleFacts.

Section ScheduleAgain.

Import SchedulingAgent Spec.

Context `{PyLib} `{PyDynamic}.

Variable self : WeatherAgent.

Lemma find_last {A} (p : A -> bool) (l : list A) (x : A) :
  find p l = None -> p x = true -> find p (l ++ [x]) = Some x.
Proof.
  induction l as [|y l IH]; simpl; intros Hnone Hx; [now rewrite Hx|].
  destruct (p y); [discriminate | now apply IH].
Qed.

(** After a meeting was added, the check for its slot finds it. *)
Lemma check_finds_added (first_check second_check : datetime) (db : Session)
    (date other_date location meeting_title : string) (row : Meeting) :
  _check_existing_meeting first_check db date location meeting_title = Return None ->
  _parse_date first_check date = Return (scheduled_date row) ->
  _parse_date second_check other_date = Return (scheduled_date row) ->
  title row = meeting_title ->
  Store.location row = location ->
  _check_existing_meeting second_check (with_meeting db row) other_date location
    meeting_title = Return (Some row).
Proof.
  unfold _check_existing_meeting. intros Hcheck Hfirst Hsecond Htitle Hlocation.
  rewrite Hfirst in Hcheck. rewrite Hsecond. cbn [Py.bind] in *.
  injection Hcheck as Hfind. f_equal.
  unfold with_meeting. cbn [meetings].
  apply find_last; [exact Hfind|].
  rewrite Htitle, Hlocation, !String.eqb_refl. simpl.
  now apply datetime_eqb_eq.
Qed.

(** A second request on a store to which the first added [row]. *)
Lemma schedule_finds_added (fault : Session -> Meeting -> option exn)
    (clock later utcnow : datetime) (db : Session)
    (date location meeting_title : string) (participants : option (list string))
    (row : Meeting) (w : WeatherData) (good : bool) :
  get_weather self location date = Return w ->
  w !! "error" = None ->
  is_good_weather self w = Return good ->
  _check_existing_meeting clock (with_meeting db row) date location meeting_title
  = Return (Some row) ->
  let run := schedule_meeting self fault clock later utcnow
               location date meeting_title participants (with_meeting db row) in
  sr_status (fst run) = "exists"
  /\ sr_meeting_id (fst run) = Some (Store.id row)
  /\ snd run = with_meeting db row.
Proof.
  intros Hw He Hg Hcheck. cbv zeta.
  unfold schedule_meeting, schedule_try.
  rewrite Hw. cbn [Py.bind]. rewrite He, Hg. cbn [Py.bind].
  rewrite Hcheck. cbn [Py.bind]. repeat split.
Qed.

(** X17. Scheduling is idempotent within a day: after a request that ended
    with the status scheduled, the same request again — same location, date
    string and title, any participants, clock still on the same day — ends
    with the status exists and the id of the meeting the first one created,
    and leaves the store as the first one left it. *)
Theorem schedule_again_finds_meeting
    (fault other_fault : Session -> Meeting -> option exn)
    (now later utcnow now' later' utcnow' : datetime)
    (location date meeting_title : string)
    (participants participants' : option (list string)) (db : Session) :
  let first := schedule_meeting self fault now later utcnow
                 location date meeting_title participants db in
  sr_status (fst first) = "scheduled" ->
  dt_date later = dt_date now ->
  dt_date now' = dt_date now ->
  let second := schedule_meeting self other_fault now' later' utcnow'
                  location date meeting_title participants' (snd first) in
  sr_status (fst second) = "exists"
  /\ sr_meeting_id (fst second) = sr_meeting_id (fst first)
  /\ snd second = snd first.
Proof.
  cbv zeta. intros Hstatus Hlater Hnow'.
  destruct (schedule_meeting_cases self fault now later utcnow
              location date meeting_title participants db)
    as [(Hs & Hdb) | [(w & good & m & Hw & He & Hg & Hc & Hs & Hid & Hdb)
       | [(w & scheduled & Hw & He & Hg & Hc & Hp & Hs & Hid & Hdb)
       | (w & reason & Hw & He & Hg & Hc & Hr & Hs & Hre & Hdb)]]];
    try (rewrite Hs in Hstatus; discriminate).
  rewrite Hdb, Hid.
  pose proof (parse_date_same_day later now date Hlater) as Hsame.
  pose proof (parse_date_same_day now' now date Hnow') as Hsame'.
  apply (schedule_finds_added other_fault now' later' utcnow' db date location
           meeting_title participants'
           (scheduled_row utcnow db location meeting_title scheduled participants w)
           w true Hw He Hg).
  apply (check_finds_added now now' db date date location meeting_title);
    try reflexivity; try assumption; simpl; congruence.
Qed.

(** A string that is no keyword and does not parse is read as tomorrow. *)
Lemma parse_date_as_tomorrow (clock : datetime) (date : string) :
  date <> "today" -> date <> "tomorrow" -> date <> "yesterday" ->
  (exists e, strptime_ymd date = Raise e) ->
  _parse_date clock date = _parse_date clock "tomorrow".
Proof.
  intros H1 H2 H3 [e He]. apply String.eqb_neq in H1, H2, H3.
  unfold _parse_date. rewrite H1, H2, H3, He. reflexivity.
Qed.

(** X18. A meeting scheduled with a date string that does not parse is a
    meeting for tomorrow: a request for tomorrow at the same location and
    with the same title, on the same day and with a weather report that has
    no error, ends with the status exists and the id of that meeting, and
    changes nothing. *)
Theorem unparseable_date_books_tomorrow
    (fault other_fault : Session -> Meeting -> option exn)
    (now later utcnow now' later' utcnow' : datetime)
    (location date meeting_title : string)
    (participants participants' : option (list string)) (db : Session)
    (w' : WeatherData) (good' : bool) :
  date <> "today" -> date <> "tomorrow" -> date <> "yesterday" ->
  (exists e, strptime_ymd date = Raise e) ->
  let first := schedule_meeting self fault now later utcnow
                 location date meeting_title participants db in
  sr_status (fst first) = "scheduled" ->
  dt_date later = dt_date now ->
  dt_date now' = dt_date now ->
  get_weather self location "tomorrow" = Return w' ->
  w' !! "error" = None ->
  is_good_weather self w' = Return good' ->
  let second := schedule_meeting self other_fault now' later' utcnow'
                  location "tomorrow" meeting_title participants' (snd first) in
  sr_status (fst second) = "exists"
  /\ sr_meeting_id (fst second) = sr_meeting_id (fst first)
  /\ snd second = snd first.
Proof.
  cbv zeta. intros H1 H2 H3 Hparse Hstatus Hlater Hnow' Hw' He' Hg'.
  destruct (schedule_meeting_cases self fault now later utcnow
              location date meeting_title participants db)
    as [(Hs & Hdb) | [(w & good & m & Hw & He & Hg & Hc & Hs & Hid & Hdb)
       | [(w & scheduled & Hw & He & Hg & Hc & Hp & Hs & Hid & Hdb)
       | (w & reason & Hw & He & Hg & Hc & Hr & Hs & Hre & Hdb)]]];
    try (rewrite Hs in Hstatus; discriminate).
  rewrite Hdb, Hid.
  pose proof (parse_date_same_day later now date Hlater) as Hsame.
  pose proof (parse_date_same_day now' now "tomorrow" Hnow') as Hsame'.
  pose proof (parse_date_as_tomorrow now date H1 H2 H3 Hparse) as Htomorrow.
  apply (schedule_finds_added other_fault now' later' utcnow' db "tomorrow" location
           meeting_title participants'
           (scheduled_row utcnow db location meeting_title scheduled participants w)
           w' good' Hw' He' Hg').
  apply (check_finds_added now now' db date "tomorrow" location meeting_title);
    try reflexivity; try assumption; simpl; congruence.
Qed.

(** X19. The reason for bad weather. When main and description are strings,
    rain in either (in any letter case that [lower] folds) gives the rain
    reason whatever else the report holds; a thunderstorm is reported as
    rain or as storm; and a reason that is returned is one of the six fixed
    texts. *)
Theorem weather_reason_priority (w : WeatherData) (main description : string) :
  get_or w "main" (PyStr "") = PyStr main ->
  get_or w "description" (PyStr "") = PyStr description ->
  (Re.contains "rain" (str_lower main) = true
   \/ Re.contains "rain" (str_lower description) = true ->
   _get_weather_reason w = Return "High probability of rain")
  /\ (Re.contains "thunderstorm" (str_lower main) = true
      \/ Re.contains "thunderstorm" (str_lower description) = true ->
      _get_weather_reason w = Return "High probability of rain"
      \/ _get_weather_reason w = Return "Stormy conditions expected")
  /\ (forall reason, _get_weather_reason w = Return reason -> In reason weather_reasons).
Proof.
  intros Hmain Hdescription. unfold _get_weather_reason.
  rewrite Hmain, Hdescription. cbn [lower_of Py.bind].
  split; [|split].
  - intros Hrain.
    assert (Hor : Re.contains "rain" (str_lower main)
                  || Re.contains "rain" (str_lower description) = true)
      by (apply orb_true_iff; exact Hrain).
    now rewrite Hor.
  - intros Hthunder.
    assert (Hstorm : Re.contains "storm" (str_lower main)
                     || Re.contains "storm" (str_lower description) = true).
    { apply orb_true_iff.
      destruct Hthunder as [Ht | Ht]; [left | right];
        apply (ReFacts.contains_trans _ "thunderstorm"); (reflexivity || exact Ht). }
    destruct (Re.contains "rain" (str_lower main)
              || Re.contains "rain" (str_lower description)); [now left|].
    rewrite Hstorm. now right.
  - intros reason. unfold weather_reasons.
    repeat match goal with
           | |- context [if ?c then _ else _] => destruct c
           | |- context [Py.bind ?c _] => destruct c; cbn [Py.bind]
           end; intros [= <-] || discriminate; simpl; tauto.
Qed.

End ScheduleAgain.

Lemma schedule_keeps_slots_distinct_witness :
  List.NoDup
    (map Spec.slot
       (meetings
          (snd (@SchedulingAgent.schedule_meeting AsciiLib.ascii_lib Spec.sample_dynamic
                  Spec.fair_weather Spec.accepts Spec.sample_now Spec.sample_now
                  Spec.sample_now "London" "tomorrow" "Team Meeting" None
                  (Spec.sample_store
                     [Spec.sample_meeting 1 "Team Meeting" 738886 []]))))).
Proof.
  apply (@schedule_keeps_slots_distinct AsciiLib.ascii_lib Spec.sample_dynamic).
  - repeat constructor. intros [].
  - reflexivity.
Defined.

Lemma schedule_again_finds_meeting_witness :
  let first :=
    @SchedulingAgent.schedule_meeting AsciiLib.ascii_lib Spec.sample_dynamic
      Spec.fair_weather Spec.accepts Spec.sample_now Spec.sample_now Spec.sample_now
      "London" "tomorrow" "Team Meeting" (Some ["ann"]) (Spec.sample_store []) in
  let second :=
    @SchedulingAgent.schedule_meeting AsciiLib.ascii_lib Spec.sample_dynamic
      Spec.fair_weather Spec.accepts Spec.sample_now Spec.sample_now Spec.sample_now
      "London" "tomorrow" "Team Meeting" None (snd first) in
  SchedulingAgent.sr_status (fst second) = "exists"
  /\ SchedulingAgent.sr_meeting_id (fst second) = Some 1
  /\ length (meetings (snd second)) = 1%nat.
Proof.
  cbv zeta.
  destruct (@schedule_again_finds_meeting AsciiLib.ascii_lib Spec.sample_dynamic
              Spec.fair_weather Spec.accepts Spec.accepts
              Spec.sample_now Spec.sample_now Spec.sample_now
              Spec.sample_now Spec.sample_now Spec.sample_now
              "London" "tomorrow" "Team Meeting" (Some ["ann"]) None
              (Spec.sample_store []) eq_refl eq_refl eq_refl)
    as (Hstatus & Hid & Hstore).
  split; [exact Hstatus|]. split; [rewrite Hid; reflexivity|].
  rewrite Hstore. reflexivity.
Defined.

Lemma unparseable_date_books_tomorrow_witness :
  let first :=
    @SchedulingAgent.schedule_meeting AsciiLib.ascii_lib Spec.sample_dynamic
      Spec.fair_weather Spec.accepts Spec.sample_now Spec.sample_now Spec.sample_now
      "London" "2024-13-45" "Team Meeting" None (Spec.sample_store []) in
  let second :=
    @SchedulingAgent.schedule_meeting AsciiLib.ascii_lib Spec.sample_dynamic
      Spec.fair_weather Spec.accepts Spec.sample_now Spec.sample_now Spec.sample_now
      "London" "tomorrow" "Team Meeting" None (snd first) in
  SchedulingAgent.sr_status (fst second) = "exists"
  /\ SchedulingAgent.sr_meeting_id (fst second) = Some 1.
Proof.
  cbv zeta.
  destruct (@unparseable_date_books_tomorrow AsciiLib.ascii_lib Spec.sample_dynamic
              Spec.fair_weather Spec.accepts Spec.accepts
              Spec.sample_now Spec.sample_now Spec.sample_now
              Spec.sample_now Spec.sample_now Spec.sample_now
              "London" "2024-13-45" "Team Meeting" None None
              (Spec.sample_store [])
              (<["main" := PyStr "Clear"]> (<["location" := PyStr "London"]> ∅)) true)
    as (Hstatus & Hid & _);
    try discriminate; try reflexivity.
  - eexists. reflexivity.
  - split; [exact Hstatus | rewrite Hid; reflexivity].
Defined.

Lemma weather_reason_priority_witness :
  @SchedulingAgent._get_weather_reason AsciiLib.ascii_lib Spec.sample_dynamic
    (<["wind_speed" := PyInt 40]> (<["main" := PyStr "Thunderstorm"]> ∅))
  = Return "Stormy conditions expected".
Proof.
  assert (Hmain : SchedulingAgent.get_or
                    (<["wind_speed" := PyInt 40]> (<["main" := PyStr "Thunderstorm"]> ∅))
                    "main" (PyStr "") = PyStr "Thunderstorm") by reflexivity.
  assert (Hdescription : SchedulingAgent.get_or
                    (<["wind_speed" := PyInt 40]> (<["main" := PyStr "Thunderstorm"]> ∅))
                    "description" (PyStr "") = PyStr "") by reflexivity.
  destruct (@weather_reason_priority AsciiLib.ascii_lib Spec.sample_dynamic
              (<["wind_speed" := PyInt 40]> (<["main" := PyStr "Thunderstorm"]> ∅))
              "Thunderstorm" "" Hmain Hdescription)
    as (_ & Hthunder & _).
  destruct (Hthunder (or_introl eq_refl)) as [Hrain | Hstorm].
  - vm_compute in Hrain. discriminate.
  - exact Hstorm.
Defined.

Section WeatherJudgement.

Import SchedulingAgent Spec.

Context `{PyLib} `{PyDynamic}.

(** X20. The judgement of the weather agent and the reason of the
    scheduling agent, on the same report. A report whose main or
    description is no string cannot be read and counts as good weather. When
    the weather is judged bad, main and description are strings, and the
    reason, when one is returned, is the catch-all Unfavorable weather
    conditions only if one of them contains extreme. *)
Theorem bad_weather_has_a_reason (w : WeatherData) :
  ((forall text, get_or w "main" (PyStr "") <> PyStr text)
   \/ (forall text, get_or w "description" (PyStr "") <> PyStr text) ->
   WeatherAgent.is_good_weather w = true)
  /\ (WeatherAgent.is_good_weather w = false ->
      exists main description,
        get_or w "main" (PyStr "") = PyStr main
        /\ get_or w "description" (PyStr "") = PyStr description
        /\ (_get_weather_reason w = Return "Unfavorable weather conditions" ->
            Re.contains "extreme" (str_lower main) = true
            \/ Re.contains "extreme" (str_lower description) = true)).
Proof.
  unfold WeatherAgent.is_good_weather, WeatherAgent.is_good_weather_try,
    _get_weather_reason.
  destruct (get_or w "main" (PyStr "")) as [| | |main|] eqn:Hmain;
    cbn [lower_of Py.bind];
    try (split; [reflexivity | discriminate]).
  destruct (get_or w "description" (PyStr "")) as [| | |description|] eqn:Hdescription;
    cbn [lower_of Py.bind];
    try (split; [reflexivity | discriminate]).
  split.
  { intros [Hno | Hno]; [destruct (Hno main) | destruct (Hno description)]; reflexivity. }
  intros Hbad. exists main, description. split; [reflexivity|]. split; [reflexivity|].
  revert Hbad. unfold WeatherAgent.bad_conditions. cbn [existsb].
  destruct (Re.contains "rain" (str_lower main)
            || Re.contains "rain" (str_lower description)); [discriminate|].
  destruct (Re.contains "storm" (str_lower main)
            || Re.contains "storm" (str_lower description)) eqn:Hstorm; [discriminate|].
  assert (Hthunder : Re.contains "thunderstorm" (str_lower main)
                     || Re.contains "thunderstorm" (str_lower description) = false).
  { apply orb_false_iff in Hstorm as [Hm Hd]. apply orb_false_iff.
    split; apply not_true_is_false; intros Ht;
      [rewrite (ReFacts.contains_trans "storm" "thunderstorm" _ eq_refl Ht) in Hm
      |rewrite (ReFacts.contains_trans "storm" "thunderstorm" _ eq_refl Ht) in Hd];
      discriminate. }
  rewrite Hthunder.
  destruct (Re.contains "snow" (str_lower main)
            || Re.contains "snow" (str_lower description)); [discriminate|].
  cbn [orb].
  destruct (Re.contains "extreme" (str_lower main)
            || Re.contains "extreme" (str_lower description)) eqn:Hextreme.
  { intros _ _. now apply orb_true_iff. }
  rewrite orb_false_r.
  destruct (exceeds_0_3 (get_or w "pop" (PyInt 0))) as [[|]|e]; cbn [Py.bind];
    destruct (exceeds_20 (get_or w "wind_speed" (PyInt 0))) as [[|]|e']; cbn [Py.bind];
    intros; discriminate.
Qed.

End WeatherJudgement.

Lemma bad_weather_has_a_reason_witness :
  exists main description,
    SchedulingAgent.get_or (<["main" := PyStr "Extreme"]> ∅) "main" (PyStr "")
    = PyStr main
    /\ SchedulingAgent.get_or (<["main" := PyStr "Extreme"]> ∅) "description" (PyStr "")
       = PyStr description
    /\ (@SchedulingAgent._get_weather_reason AsciiLib.ascii_lib Spec.sample_dynamic
          (<["main" := PyStr "Extreme"]> ∅)
        = Return "Unfavorable weather conditions" ->
        Re.contains "extreme" (Sql.lower main) = true
        \/ Re.contains "extreme" (Sql.lower description) = true).
Proof.
  apply (@bad_weather_has_a_reason AsciiLib.ascii_lib Spec.sample_dynamic
           (<["main" := PyStr "Extreme"]> ∅)).
  reflexivity.
Defined.
